(** * Sankey sales chart: the data and graph assembly of [main.py]

    A shallow embedding of the script [src/main.py]: the constant table, the
    graph assembler [build_sankey_data], the colour conversion [hex_to_rgba]
    and the exporter [main], followed by the properties of the specification.

    Conventions of the embedding.
    - A Python [float] is a binary64 number: Rocq's primitive [float], whose
      exact value is read through [Prim2SF].
    - A Python [str] is a Rocq [string]: a sequence of code points 0..255,
      which holds every string that the program computes with (the arrow
      of a hover template, handed to the library unread, is kept as its
      bytes). The conversion of a [str] of any code points is
      [Wide.hex_to_rgba], on lists of code points.
    - A Python exception is a value of [exn]; code that may raise returns a
      [result].
    - A [dict] read by key only is a [gmap]; a [dict] whose order is observed
      ([PRODUCTS.values()]) is an association list.
    - The file system and the calls into the charting library are an explicit
      [world] that [main] transforms; the library itself (layout, drawing,
      the rendering of an image) is outside the embedding: a call into it
      fails here only for what the file system holds, and the failures of
      the library itself are not modelled. *)

From Stdlib Require Import ZArith QArith Qround Qpower Lqa Ascii String List Lia.
From Stdlib Require Import DecimalString.
From Stdlib Require Import PrimFloat FloatOps SpecFloat.
From stdpp Require Import base option list list_monad strings gmap.

Close Scope Q_scope.
Set Warnings "-inexact-float".

(** ** Exceptions and results *)

Inductive exn : Type :=
  | KeyError (key : string)
  | IndexError
  | ValueError
  | FileExistsError
  | FileNotFoundError
  | IsADirectoryError.

Inductive result (A : Type) : Type :=
  | Ok (a : A)
  | Raise (e : exn).
Arguments Ok {A} a.
Arguments Raise {A} e.

#[global] Instance result_ret : MRet result := fun _ a => Ok a.
#[global] Instance result_bind : MBind result := fun _ _ f r =>
  match r with
  | Ok a => f a
  | Raise e => Raise e
  end.
#[global] Instance result_fmap : FMap result := fun _ _ f r =>
  match r with
  | Ok a => Ok (f a)
  | Raise e => Raise e
  end.

Definition is_Ok {A} (r : result A) : Prop := exists a, r = Ok a.
Definition raises {A} (r : result A) : Prop := exists e, r = Raise e.

(** ** Python strings *)

Module Str.

Fixpoint mem (c : ascii) (s : string) : bool :=
  match s with
  | EmptyString => false
  | String d s' => Ascii.eqb c d || mem c s'
  end.

(** [s.lstrip(chars)]: drops every leading character that occurs in [chars]. *)
Fixpoint lstrip (chars s : string) : string :=
  match s with
  | EmptyString => EmptyString
  | String c s' => if mem c chars then lstrip chars s' else s
  end.

Fixpoint drop (n : nat) (s : string) : string :=
  match n, s with
  | O, _ => s
  | S _, EmptyString => EmptyString
  | S n', String _ s' => drop n' s'
  end.

Fixpoint take (n : nat) (s : string) : string :=
  match n, s with
  | O, _ => EmptyString
  | S _, EmptyString => EmptyString
  | S n', String c s' => String c (take n' s')
  end.

(** [s[i:j]] for indices [0 <= i <= j]: the characters at positions
    [i <= p < min j (len s)]; never an error. *)
Definition slice (s : string) (i j : nat) : string := take (j - i) (drop i s).

Fixpoint repeat (c : ascii) (n : nat) : string :=
  match n with
  | O => EmptyString
  | S n' => String c (repeat c n')
  end.

(** [str(n)] of an [int]. *)
Definition of_int (n : Z) : string := NilZero.string_of_int (Z.to_int n).


End Str.

(** ** [int(s, 16)] *)

(** On the strings of code points 0..255. Among these the digits of base 16
    are those of ASCII, and the blanks are those of ASCII, NEL and the
    no-break space. The decimal digits and blanks that Unicode has beyond
    code point 255 are read by [Wide.int16] below. *)
Module Int16.

Definition code (c : ascii) : Z := Z.of_N (N_of_ascii c).

(** The value of a digit of base 16. *)
Definition digit (c : ascii) : option Z :=
  let n := code c in
  if (48 <=? n)%Z && (n <=? 57)%Z then Some (n - 48)%Z
  else if (65 <=? n)%Z && (n <=? 70)%Z then Some (n - 55)%Z
  else if (97 <=? n)%Z && (n <=? 102)%Z then Some (n - 87)%Z
  else None.

(** The characters [int] skips around a number: the ASCII blanks, and (below
    code point 256) NEL and the no-break space. *)
Definition space (c : ascii) : bool :=
  let n := code c in
  ((9 <=? n)%Z && (n <=? 13)%Z) || (n =? 32)%Z || (n =? 133)%Z || (n =? 160)%Z.

Definition sign (c : ascii) : bool :=
  Ascii.eqb c "+" || Ascii.eqb c "-".

Definition underscore (c : ascii) : bool := Ascii.eqb c "_".

Fixpoint lskip (s : string) : string :=
  match s with
  | String c s' => if space c then lskip s' else s
  | EmptyString => EmptyString
  end.

Fixpoint rskip (s : string) : string :=
  match s with
  | EmptyString => EmptyString
  | String c s' =>
      match rskip s' with
      | EmptyString => if space c then EmptyString else String c EmptyString
      | r => String c r
      end
  end.

(** Digits, with single underscores allowed between them. [prev] tells that
    the previous character was an underscore. *)
Fixpoint digits (s : string) (prev : bool) (acc : Z) : option Z :=
  match s with
  | EmptyString => if prev then None else Some acc
  | String c s' =>
      if underscore c then (if prev then None else digits s' true acc)
      else match digit c with
           | Some d => digits s' false (16 * acc + d)%Z
           | None => None
           end
  end.

(** After the sign: an optional [0x] or [0X], which one underscore may
    follow. *)
Definition prefix (s : string) : string :=
  match s with
  | String z (String x t) =>
      if Ascii.eqb z "0" && (Ascii.eqb x "x" || Ascii.eqb x "X") then
        match t with
        | String u t' => if underscore u then t' else t
        | EmptyString => t
        end
      else s
  | _ => s
  end.

Definition magnitude (s : string) : option Z :=
  match prefix s with
  | EmptyString => None
  | String c _ as t => if underscore c then None else digits t false 0
  end.

Definition parse (s : string) : option Z :=
  match rskip (lskip s) with
  | String c t as u =>
      if Ascii.eqb c "-" then Z.opp <$> magnitude t
      else if Ascii.eqb c "+" then magnitude t
      else magnitude u
  | EmptyString => None
  end.

(** [int(s, 16)]: a [ValueError] when [s] is no number of base 16. *)
Definition int (s : string) : result Z :=
  match parse s with
  | Some n => Ok n
  | None => Raise ValueError
  end.

End Int16.

(** ** Python floats: exact value and formatting *)

Module PyFloat.

(** The exact value [m * 2^e] of a finite float, as a rational. *)
Definition value (m : positive) (e : Z) : Q :=
  (inject_Z (Zpos m) * Qpower 2 e)%Q.

(** The nearest integer, a tie going to the even one. *)
Definition round_half_even (q : Q) : Z :=
  let f := Qfloor q in
  match Qcompare (q - inject_Z f) (1 # 2) with
  | Lt => f
  | Gt => (f + 1)%Z
  | Eq => if Z.even f then f else (f + 1)%Z
  end.

(** [m * 2^e * 10^k] rounded to an integer: the digits of a fixed-point
    rendering with [k] decimals. *)
Definition scaled (k : Z) (m : positive) (e : Z) : Z :=
  round_half_even (value m e * Qpower 10 k).

Definition digit_char (d : Z) : ascii := ascii_of_N (Z.to_N (48 + d)).

Definition two_digits (n : Z) : string :=
  String (digit_char (n / 10)) (String (digit_char (n mod 10)) EmptyString).

Definition fixed2 (neg : bool) (n : Z) : string :=
  (if neg then "-" else "") +:+ Str.of_int (n / 100) +:+ "." +:+ two_digits (n mod 100).

(** [format(x, ".2f")]. *)
Definition format_2f (x : float) : string :=
  match Prim2SF x with
  | S754_nan => "nan"
  | S754_infinity s => if s then "-inf" else "inf"
  | S754_zero s => fixed2 s 0
  | S754_finite s m e => fixed2 s (scaled 2 m e)
  end.

(** The value in thousandths, the precision of the literals of the constant
    table; [None] for what is no finite number. *)
Definition milli (x : float) : option Z :=
  match Prim2SF x with
  | S754_zero _ => Some 0%Z
  | S754_finite s m e => Some (if s then - scaled 3 m e else scaled 3 m e)%Z
  | _ => None
  end.

(** *** [repr]: the shortest digits that read back as the same float *)

(** The [k] with [10^(k-1) <= x < 10^k]: searched upwards from 1 when
    [1 <= x], downwards from 0 otherwise. *)
Fixpoint decpt_up (fuel : nat) (k : Z) (x : Q) : Z :=
  match fuel with
  | O => k
  | S fuel' =>
      match Qcompare x (Qpower 10 k) with
      | Lt => k
      | _ => decpt_up fuel' (k + 1)%Z x
      end
  end.

Fixpoint decpt_down (fuel : nat) (k : Z) (x : Q) : Z :=
  match fuel with
  | O => k
  | S fuel' =>
      match Qcompare x (Qpower 10 (k - 1)) with
      | Lt => decpt_down fuel' (k - 1)%Z x
      | _ => k
      end
  end.

Definition decpt (x : Q) : Z :=
  match Qcompare x 1 with
  | Lt => decpt_down 330 0%Z x
  | _ => decpt_up 330 1%Z x
  end.

(** [c] reads back as [m * 2^e]: it lies between the midpoints to the two
    neighbouring floats, the midpoints included when [m] is even. *)
Definition reads_back (m : positive) (e : Z) (c : Q) : bool :=
  let x := value m e in
  let up := Qpower 2 (e - 1) in
  let down :=
    if Pos.eqb m (2 ^ 52) && (-1074 <? e)%Z then Qpower 2 (e - 2) else Qpower 2 (e - 1) in
  let below := Qcompare (x - down) c in
  let above := Qcompare c (x + up) in
  if Z.even (Zpos m)
  then negb (match below with Gt => true | _ => false end)
       && negb (match above with Gt => true | _ => false end)
  else (match below with Lt => true | _ => false end)
       && (match above with Lt => true | _ => false end).

(** The [n]-digit decimal nearest to [x] among those that read back as [x]. *)
Definition shortest_at (m : positive) (e k n : Z) : option Z :=
  let x := value m e in
  let u := Qpower 10 (k - n) in
  let lo := Qfloor (x / u) in
  let hi := (lo + 1)%Z in
  let clo := (inject_Z lo * u)%Q in
  let chi := (inject_Z hi * u)%Q in
  let hi_closer :=
    match Qcompare (chi - x) (x - clo) with
    | Lt => true
    | Gt => false
    | Eq => Z.odd lo
    end in
  match reads_back m e clo, reads_back m e chi with
  | true, true => Some (if hi_closer then hi else lo)
  | true, false => Some lo
  | false, true => Some hi
  | false, false => None
  end.

Fixpoint shortest_from (fuel : nat) (m : positive) (e k n : Z) : Z * Z :=
  match fuel with
  | O => (Zpos m, n)
  | S fuel' =>
      match shortest_at m e k n with
      | Some d => (d, n)
      | None => shortest_from fuel' m e k (n + 1)%Z
      end
  end.

Fixpoint strip_zeros (fuel : nat) (d : Z) : Z :=
  match fuel with
  | O => d
  | S fuel' => if (d mod 10 =? 0)%Z then strip_zeros fuel' (d / 10)%Z else d
  end.

(** The digits of [repr] and the position of the decimal point before them:
    the value is [0.d1d2... * 10^pt]. *)
Definition shortest (m : positive) (e : Z) : string * Z :=
  let k := decpt (value m e) in
  let '(d, n) := shortest_from 17 m e k 1%Z in
  let all := Str.of_int d in
  let pt := (k + (Z.of_nat (String.length all) - n))%Z in
  (Str.of_int (strip_zeros 20 d), pt).

Definition exponent (x : Z) : string :=
  let a := Str.of_int (Z.abs x) in
  (if (x <? 0)%Z then "-" else "+") +:+ (if (Z.abs x <? 10)%Z then "0" else "") +:+ a.

(** The layout of [repr]: positional when [-4 < pt <= 16], else scientific. *)
Definition layout (ds : string) (pt : Z) : string :=
  let n := Z.of_nat (String.length ds) in
  if (-4 <? pt)%Z && (pt <=? 16)%Z then
    if (pt <=? 0)%Z then "0." +:+ Str.repeat "0" (Z.to_nat (- pt)) +:+ ds
    else if (n <=? pt)%Z then ds +:+ Str.repeat "0" (Z.to_nat (pt - n)) +:+ ".0"
    else Str.take (Z.to_nat pt) ds +:+ "." +:+ Str.drop (Z.to_nat pt) ds
  else
    Str.take 1 ds +:+ (if (1 <? n)%Z then "." +:+ Str.drop 1 ds else "")
    +:+ "e" +:+ exponent (pt - 1).

Definition repr_SF (x : spec_float) : string :=
  match x with
  | S754_nan => "nan"
  | S754_infinity s => if s then "-inf" else "inf"
  | S754_zero s => if s then "-0.0" else "0.0"
  | S754_finite s m e =>
      let '(ds, pt) := shortest m e in
      (if s then "-" else "") +:+ layout ds pt
  end.

(** [repr(x)], which is also [str(x)] and [format(x, "")]. *)
Definition repr (x : float) : string := repr_SF (Prim2SF x).

End PyFloat.

(** ** Python containers *)

(** [d[k]] on a dict kept as an association list: [KeyError] when absent. *)
Fixpoint dict_get {V} (d : list (string * V)) (k : string) : result V :=
  match d with
  | [] => Raise (KeyError k)
  | (k', v) :: d' => if String.eqb k k' then Ok v else dict_get d' k
  end.

(** [d.values()], in insertion order. *)
Definition dict_values {V} (d : list (string * V)) : list V := d.*2.

(** [d[k]] on a dict kept as a finite map. *)
Definition map_get {V} (d : gmap string V) (k : string) : result V :=
  match d !! k with
  | Some v => Ok v
  | None => Raise (KeyError k)
  end.

(** [l[i]]: a negative index counts from the end; [IndexError] out of range. *)
Definition getitem {A} (l : list A) (i : Z) : result A :=
  let j := if (i <? 0)%Z then (i + Z.of_nat (length l))%Z else i in
  if (j <? 0)%Z then Raise IndexError
  else match l !! Z.to_nat j with
       | Some a => Ok a
       | None => Raise IndexError
       end.

(** [sum(xs)] of floats: the additions from left to right, starting from the
    integer 0. *)
Definition sum (xs : list float) : float := fold_left PrimFloat.add xs 0%float.

(** CPython 3.12 and later carry a compensation term through the same loop
    (Neumaier's summation) and add it at the end when it is finite and not
    zero. *)
Definition compensate (st : float * float) (x : float) : float * float :=
  let '(f, c) := st in
  let t := (f + x)%float in
  if (abs x <=? abs f)%float
  then (t, (c + ((f - t) + x))%float)
  else (t, (c + ((x - t) + f))%float).

Definition sum_compensated (xs : list float) : float :=
  let '(f, c) := fold_left compensate xs (0%float, 0%float) in
  if negb (c =? 0)%float && (abs c <? infinity)%float then (f + c)%float else f.

(** ** The constant table *)

Definition OUTPUT_DIR : string := "output".
Definition OUTPUT_NAME : string := "sankey_chart".

Section Constants.
Open Scope float_scope.

Definition PRODUCTS : list (string * float) :=
  [ ("iPhone", 47.0);
    ("Mac", 9.2);
    ("iPad", 6.7);
    ("Wearables", 9.377) ].

Definition REVENUE : float := sum (dict_values PRODUCTS).

Definition COGS : float := 44.379.
Definition GROSS_PROFIT : float := 27.898.

Definition OPERATING_EXPENSES : float := 20.199.
Definition OPERATING_PROFIT : float := 7.699.

Definition NET_PROFIT : float := 5.638.
Definition TAXES : float := 2.118.
Definition OTHER : float := 0.056.

Definition INDUSTRIAL : float := 6.277.
Definition COMMERCIAL : float := 8.038.
Definition ADMINISTRATIVE : float := 4.069.
Definition R_AND_D : float := 0.010.
Definition HEADQTR : float := 0.936.
Definition DEPRECIATION : float := 0.868.

Definition RAW_MATERIAL : float := 37.024.
Definition LABOR_COSTS : float := 5.365.
Definition OTHER_COGS : float := 1.990.

End Constants.

Definition COLORS : gmap string string :=
  list_to_map
    [ ("blue", "#4A90D9");
      ("green", "#27AE60");
      ("red", "#C0392B") ].

(** ** [hex_to_rgba] *)

(** The f-string of the result: the three integers and [alpha] as [str]
    writes them. *)
Definition rgba (r g b : Z) (alpha : float) : string :=
  "rgba(" +:+ Str.of_int r +:+ ", " +:+ Str.of_int g +:+ ", " +:+ Str.of_int b
  +:+ ", " +:+ PyFloat.repr alpha +:+ ")".

(** The three slices are read in order, and the first that is no number of
    base 16 raises; nothing else is checked. [alpha] is a float at every
    call of the source. *)
Definition hex_to_rgba (hex_color : string) (alpha : float) : result string :=
  let hex_color := Str.lstrip "#" hex_color in
  r ← Int16.int (Str.slice hex_color 0 2);
  g ← Int16.int (Str.slice hex_color 2 4);
  b ← Int16.int (Str.slice hex_color 4 6);
  Ok (rgba r g b alpha).

(** ** [build_sankey_data] *)

Record sankey_data : Type := {
  labels : list string;
  node_colors : list string;
  sources : list Z;
  targets : list Z;
  values : list float;
  link_colors : list string
}.

(** The list of (name, value) pairs, in the order of the source. *)
Definition node_data : result (list (string * float)) :=
  mapM id
    [ pair "iPhone" <$> dict_get PRODUCTS "iPhone";
      pair "Mac" <$> dict_get PRODUCTS "Mac";
      pair "iPad" <$> dict_get PRODUCTS "iPad";
      pair "Wearables" <$> dict_get PRODUCTS "Wearables";
      Ok ("Revenue", REVENUE);
      Ok ("Gross Profit", GROSS_PROFIT);
      Ok ("COGS", COGS);
      Ok ("Operating Profit", OPERATING_PROFIT);
      Ok ("Operating Expenses", OPERATING_EXPENSES);
      Ok ("Net Profit", NET_PROFIT);
      Ok ("Taxes", TAXES);
      Ok ("Other", OTHER);
      Ok ("Industrial", INDUSTRIAL);
      Ok ("Commercial", COMMERCIAL);
      Ok ("Administrative", ADMINISTRATIVE);
      Ok ("R & D", R_AND_D);
      Ok ("Headqtr.", HEADQTR);
      Ok ("Depreciation", DEPRECIATION);
      Ok ("Raw Material", RAW_MATERIAL);
      Ok ("Labor Costs", LABOR_COSTS);
      Ok ("Other Costs", OTHER_COGS) ].

(** The f-string of a label. *)
Definition label (name : string) (value : float) : string :=
  "<b>" +:+ name +:+ "</b><br><b>$" +:+ PyFloat.format_2f value +:+ "M</b>".

Definition node_colors_literal : result (list string) :=
  mapM (map_get COLORS)
    [ "blue"; "blue"; "blue"; "blue"; "blue";
      "green"; "red";
      "green"; "red";
      "green"; "red"; "green";
      "red"; "red"; "red"; "red"; "red"; "red";
      "red"; "red"; "red" ].

Definition link : Type := Z * Z * float.

(** The list of (source index, target index, value) triples. *)
Definition links : result (list link) :=
  mapM id
    [ pair (0, 4)%Z <$> dict_get PRODUCTS "iPhone";
      pair (1, 4)%Z <$> dict_get PRODUCTS "Mac";
      pair (2, 4)%Z <$> dict_get PRODUCTS "iPad";
      pair (3, 4)%Z <$> dict_get PRODUCTS "Wearables";
      Ok (4, 5, GROSS_PROFIT)%Z;
      Ok (4, 6, COGS)%Z;
      Ok (5, 7, OPERATING_PROFIT)%Z;
      Ok (5, 8, OPERATING_EXPENSES)%Z;
      Ok (7, 9, NET_PROFIT)%Z;
      Ok (7, 10, TAXES)%Z;
      Ok (7, 11, OTHER)%Z;
      Ok (8, 12, INDUSTRIAL)%Z;
      Ok (8, 13, COMMERCIAL)%Z;
      Ok (8, 14, ADMINISTRATIVE)%Z;
      Ok (8, 15, R_AND_D)%Z;
      Ok (8, 16, HEADQTR)%Z;
      Ok (8, 17, DEPRECIATION)%Z;
      Ok (6, 18, RAW_MATERIAL)%Z;
      Ok (6, 19, LABOR_COSTS)%Z;
      Ok (6, 20, OTHER_COGS)%Z ].

(** The colour of a link: its target's colour at the given transparency. *)
Definition link_color (node_colors : list string) (t : Z) : result string :=
  c ← getitem node_colors t;
  hex_to_rgba c 0.5%float.

Definition build_sankey_data : result sankey_data :=
  node_data ← node_data;
  let labels := (fun nv : string * float => label nv.1 nv.2) <$> node_data in
  node_colors ← node_colors_literal;
  links ← links;
  let sources := (fun l : link => l.1.1) <$> links in
  let targets := (fun l : link => l.1.2) <$> links in
  let values := (fun l : link => l.2) <$> links in
  link_colors ← mapM (link_color node_colors) targets;
  Ok {| labels := labels;
        node_colors := node_colors;
        sources := sources;
        targets := targets;
        values := values;
        link_colors := link_colors |}.

(** ** [create_sankey_chart] *)

(** The figure handed to the charting library: the Sankey trace and the
    layout, field by field. *)
Record figure : Type := {
  arrangement : string;
  node_pad : Z;
  node_thickness : Z;
  node_line_width : Z;
  node_label : list string;
  node_color : list string;
  node_hovertemplate : string;
  link_source : list Z;
  link_target : list Z;
  link_value : list float;
  link_colour : list string;
  link_hovertemplate : string;
  font_family : string;
  font_size : Z;
  font_color : string;
  paper_bgcolor : string;
  plot_bgcolor : string;
  height : Z;
  width : Z;
  margin_l : Z;
  margin_r : Z;
  margin_t : Z;
  margin_b : Z
}.

Definition create_sankey_chart : result figure :=
  data ← build_sankey_data;
  Ok {| arrangement := "snap";
        node_pad := 40;
        node_thickness := 40;
        node_line_width := 0;
        node_label := labels data;
        node_color := node_colors data;
        node_hovertemplate := "%{label}<extra></extra>";
        link_source := sources data;
        link_target := targets data;
        link_value := values data;
        link_colour := link_colors data;
        link_hovertemplate :=
          "%{source.label} → %{target.label}<br>$%{value:.2f}M<extra></extra>";
        font_family := "Arial, sans-serif";
        font_size := 14;
        font_color := "black";
        paper_bgcolor := "white";
        plot_bgcolor := "white";
        height := 900;
        width := 1600;
        margin_l := 80;
        margin_r := 80;
        margin_t := 40;
        margin_b := 40 |}.

(** ** The exporter [main] *)

(** What a path of the file system holds. *)
Inductive entry : Type :=
  | Directory
  | HtmlFile (fig : figure)
  | ImageFile (fig : figure) (scale : Z).

(** What [main] acts on: the file system below the working directory, the
    paths written so far (oldest first), the lines printed, and the figures
    shown. *)
Record world : Type := {
  files : gmap string entry;
  written : list string;
  stdout : list string;
  shown : list figure
}.

Definition is_file (e : entry) : bool :=
  match e with
  | Directory => false
  | _ => true
  end.

(** [p / name] of two relative POSIX paths, as a string. *)
Definition joinpath (p name : string) : string := p +:+ "/" +:+ name.

(** [Path.parent]: what precedes the last separator; empty for a path with
    none, which lies in the working directory. *)
Fixpoint parent (p : string) : string :=
  match p with
  | EmptyString => EmptyString
  | String c s => if Str.mem "/" s then String c (parent s) else EmptyString
  end.

(** [Path(p).mkdir(exist_ok=...)] for a path directly below the working
    directory. *)
Definition mkdir (exist_ok : bool) (p : string) (w : world) : result world :=
  match files w !! p with
  | None =>
      Ok {| files := <[p := Directory]> (files w);
            written := written w; stdout := stdout w; shown := shown w |}
  | Some Directory => if exist_ok then Ok w else Raise FileExistsError
  | Some _ => Raise FileExistsError
  end.

(** The library opens [p] for writing and replaces what it holds. Only the
    failures of opening [p] are modelled, not those of the library before
    it opens the file. *)
Definition write_file (p : string) (e : entry) (w : world) : result world :=
  match files w !! p with
  | Some Directory => Raise IsADirectoryError
  | _ =>
      let dir := parent p in
      let present :=
        match dir with
        | EmptyString => true
        | _ => match files w !! dir with Some Directory => true | _ => false end
        end in
      if present
      then Ok {| files := <[p := e]> (files w);
                 written := written w ++ [p];
                 stdout := stdout w; shown := shown w |}
      else Raise FileNotFoundError
  end.

Definition write_html (fig : figure) (p : string) : world -> result world :=
  write_file p (HtmlFile fig).

Definition write_image (fig : figure) (p : string) (scale : Z) : world -> result world :=
  write_file p (ImageFile fig scale).

Definition print (line : string) (w : world) : world :=
  {| files := files w; written := written w;
     stdout := stdout w ++ [line]; shown := shown w |}.

Definition show (fig : figure) (w : world) : world :=
  {| files := files w; written := written w;
     stdout := stdout w; shown := shown w ++ [fig] |}.

(** [x in (a, b)] on strings. *)
Definition str_in (x : string) (xs : list string) : bool :=
  existsb (String.eqb x) xs.

(** [main], with the module constant [OUTPUT_FORMAT] as a parameter. *)
Definition main_with (output_format : string) (w : world) : result world :=
  fig ← create_sankey_chart;
  w ← mkdir true OUTPUT_DIR w;
  w ← (if str_in output_format ["html"; "both"] then
         let html_path := joinpath OUTPUT_DIR (OUTPUT_NAME +:+ ".html") in
         w ← write_html fig html_path w;
         Ok (print ("Saved: " +:+ html_path) w)
       else Ok w);
  w ← (if str_in output_format ["png"; "both"] then
         let png_path := joinpath OUTPUT_DIR (OUTPUT_NAME +:+ ".png") in
         w ← write_image fig png_path 2 w;
         Ok (print ("Saved: " +:+ png_path) w)
       else Ok w);
  Ok (show fig w).


(** ** Notions of the specification *)

(** The value of [build_sankey_data], evaluated once. *)
Definition assembled : sankey_data :=
  Eval vm_compute in
    match build_sankey_data with
    | Ok d => d
    | Raise _ =>
        {| labels := []; node_colors := []; sources := []; targets := [];
           values := []; link_colors := [] |}
    end.

(** There is an edge from position [s] to position [t]. *)
Definition edge (d : sankey_data) (s t : Z) : Prop :=
  exists i, sources d !! i = Some s /\ targets d !! i = Some t.

(** The values of the links that have [n] at the given end. *)
Definition flow (ends : list Z) (vals : list float) (n : Z) : list float :=
  (filter (fun ev : Z * float => ev.1 = n) (zip ends vals)).*2.

Definition inflow (d : sankey_data) (n : Z) : list float :=
  flow (targets d) (values d) n.

Definition outflow (d : sankey_data) (n : Z) : list float :=
  flow (sources d) (values d) n.

(** The total of a list of values read as decimals with three places, in
    thousandths: the exact sum of the literals as they are written. *)
Definition total_milli (vs : list float) : option Z :=
  foldr Z.add 0%Z <$> mapM PyFloat.milli vs.

(** The position of a node, by its name. *)
Fixpoint position (name : string) (names : list string) : option Z :=
  match names with
  | [] => None
  | n :: names' =>
      if String.eqb name n then Some 0%Z else Z.succ <$> position name names'
  end.

Definition is_digit (c : ascii) : bool :=
  (48 <=? Int16.code c)%Z && (Int16.code c <=? 57)%Z.

Fixpoint all_digits (s : string) : bool :=
  match s with
  | EmptyString => true
  | String c s' => is_digit c && all_digits s'
  end.

(** A number written with exactly two decimals: digits, a point, two
    digits. *)
Definition two_decimals (s : string) : Prop :=
  exists whole frac,
    s = whole +:+ "." +:+ frac /\
    whole <> "" /\ all_digits whole = true /\
    String.length frac = 2 /\ all_digits frac = true.

(** Bold text, a line break and joined lines, in the markup of a label. *)
Definition bold (s : string) : string := "<b>" +:+ s +:+ "</b>".

Fixpoint join (sep : string) (lines : list string) : string :=
  match lines with
  | [] => ""
  | [l] => l
  | l :: ls => l +:+ sep +:+ join sep ls
  end.

Definition newline : string := String (ascii_of_nat 10) EmptyString.

(** The two lines of a label as the specification writes them. *)
Definition label_lines (name : string) (value : float) : list string :=
  [name; "$" +:+ PyFloat.format_2f value +:+ "M"].

Definition is_hex (c : ascii) : bool :=
  match Int16.digit c with
  | Some _ => true
  | None => false
  end.

Fixpoint all_hex (s : string) : bool :=
  match s with
  | EmptyString => true
  | String c s' => is_hex c && all_hex s'
  end.

(** Exactly six digits of base 16. *)
Definition six_hex_digits (s : string) : bool :=
  (String.length s =? 6) && all_hex s.

(** A character that a number of base 16 of at most two characters may
    hold: a digit, a sign, or a blank. *)
Definition accepted (c : ascii) : bool :=
  is_hex c || Int16.sign c || Int16.space c.


(** The paths written between the worlds [w] and [w']. *)
Definition new_writes (w w' : world) : list string :=
  drop (length (written w)) (written w').

(** A world in which the run can write its files: the output directory is
    absent or a directory, and no target is a directory. *)
Definition writable (w : world) : Prop :=
  (files w !! OUTPUT_DIR = None \/ files w !! OUTPUT_DIR = Some Directory) /\
  files w !! joinpath OUTPUT_DIR (OUTPUT_NAME +:+ ".html") <> Some Directory /\
  files w !! joinpath OUTPUT_DIR (OUTPUT_NAME +:+ ".png") <> Some Directory.

(** A finite float that is not negative (and not the negative zero). *)
Definition nonneg_finite (x : float) : bool :=
  match Prim2SF x with
  | S754_zero s => negb s
  | S754_finite s _ _ => negb s
  | _ => false
  end.

Definition empty_world : world :=
  {| files := ∅; written := []; stdout := []; shown := [] |}.

(** The decimal [z / 1000] reads as the float [x]: [x] is the binary64
    number nearest to it, which is how Python reads a literal. *)
Definition reads_as (z : Z) (x : float) : bool :=
  match Prim2SF x with
  | S754_finite false m e =>
      match z with
      | Zpos p => PyFloat.reads_back m e (Zpos p # 1000)
      | _ => false
      end
  | _ => false
  end.

(** ** Notions for the conversion of every input *)

(** Every character, in the order of the code points. *)
Definition all_ascii : list ascii := ascii_of_nat <$> seq 0 256.

(** What a slice of at most two characters is worth as a number of base 16,
    read off its characters: a digit alone; two digits; a digit after a
    sign or a blank; a digit before a blank. *)
Definition slice_value (t : string) : option Z :=
  match t with
  | String c EmptyString => Int16.digit c
  | String c (String d EmptyString) =>
      match Int16.digit c, Int16.digit d with
      | Some u, Some v => Some (16 * u + v)%Z
      | None, Some v =>
          if Ascii.eqb c "-" then Some (- v)%Z
          else if Ascii.eqb c "+" || Int16.space c then Some v
          else None
      | Some u, None => if Int16.space d then Some u else None
      | None, None => None
      end
  | _ => None
  end.

(** The agreement of [int(., 16)] with [slice_value] on the two characters
    [c] and [d]. *)
Definition agrees (c d : ascii) : bool :=
  bool_decide (Int16.parse (String c (String d EmptyString))
               = slice_value (String c (String d EmptyString))).

(** A float that is a number: a zero or a finite value. *)
Definition finite (x : float) : bool :=
  match Prim2SF x with
  | S754_zero _ | S754_finite _ _ _ => true
  | _ => false
  end.

(** A number written with two decimals, with or without a minus sign. *)
Definition signed_two_decimals (s : string) : Prop :=
  two_decimals s \/ exists t, s = "-" +:+ t /\ two_decimals t.

(** ** Notions for the runs of the exporter *)

(** The paths that a run with the format [fmt] writes, in order. *)
Definition exported (fmt : string) : list string :=
  (if str_in fmt ["html"; "both"] then ["output/sankey_chart.html"] else [])
  ++ (if str_in fmt ["png"; "both"] then ["output/sankey_chart.png"] else []).

(** The line printed for a written path. *)
Definition saved (p : string) : string := "Saved: " +:+ p.

(** The file system after the writes of a run with the format [fmt]. *)
Definition exported_files (fmt : string) (fig : figure)
    (m : gmap string entry) : gmap string entry :=
  let m1 :=
    if str_in fmt ["html"; "both"]
    then <["output/sankey_chart.html" := HtmlFile fig]> m else m in
  if str_in fmt ["png"; "both"]
  then <["output/sankey_chart.png" := ImageFile fig 2]> m1 else m1.

(** A world in which a run with the format [fmt] can go through: the output
    directory is absent or a directory, and no path to be written is a
    directory. *)
Definition ready (fmt : string) (w : world) : Prop :=
  (files w !! OUTPUT_DIR = None \/ files w !! OUTPUT_DIR = Some Directory) /\
  Forall (fun p => files w !! p <> Some Directory) (exported fmt).

(** The world after a run, or the world as it was when the run raises. *)
Definition run_of (fmt : string) (w : world) : world :=
  match main_with fmt w with
  | Ok w' => w'
  | Raise _ => w
  end.

(** A figure with nothing in it, to fill a file of a world. *)
Definition blank_figure : figure :=
  {| arrangement := ""; node_pad := 0; node_thickness := 0;
     node_line_width := 0; node_label := []; node_color := [];
     node_hovertemplate := ""; link_source := []; link_target := [];
     link_value := []; link_colour := []; link_hovertemplate := "";
     font_family := ""; font_size := 0; font_color := "";
     paper_bgcolor := ""; plot_bgcolor := ""; height := 0; width := 0;
     margin_l := 0; margin_r := 0; margin_t := 0; margin_b := 0 |}.

(** A world whose only entry is a regular file named as the output
    directory. *)
Definition blocked_world : world :=
  {| files := {[ OUTPUT_DIR := HtmlFile blank_figure ]};
     written := []; stdout := []; shown := [] |}.

(** A world in which both files of the chart exist already, with other
    content. *)
Definition stale_world : world :=
  {| files :=
       {[ OUTPUT_DIR := Directory;
          "output/sankey_chart.html" := HtmlFile blank_figure;
          "output/sankey_chart.png" := ImageFile blank_figure 1 ]};
     written := []; stdout := []; shown := [] |}.

(** ** Notions for the text of a label *)

(** The text before and after the first point of [s]. *)
Fixpoint split_point (s : string) : option (string * string) :=
  match s with
  | EmptyString => None
  | String c s' =>
      if Ascii.eqb c "."
      then Some (EmptyString, s')
      else match split_point s' with
           | Some (w, f) => Some (String c w, f)
           | None => None
           end
  end.

(** The number that a sequence of decimal digits writes, after [acc]. *)
Fixpoint digits_value (s : string) (acc : Z) : Z :=
  match s with
  | EmptyString => acc
  | String c s' => digits_value s' (10 * acc + (Int16.code c - 48))%Z
  end.

(** The number of hundredths that a text of the form digits, point, two
    digits writes: 938 for "9.38". *)
Definition read_hundredths (s : string) : option Z :=
  match split_point s with
  | Some (w, f) =>
      if (String.length f =? 2) && negb (String.length w =? 0)
         && all_digits w && all_digits f
      then Some (digits_value (w +:+ f) 0)
      else None
  | None => None
  end.

(** The character of a new line. *)
Definition newline_char : ascii := ascii_of_nat 10.

(** The text that [.2f] gives for the positive finite float [x] reads as
    the hundredths to which [x] rounds. *)
Definition reads_rounded (x : float) : bool :=
  match Prim2SF x with
  | S754_finite false m e =>
      match read_hundredths (PyFloat.format_2f x) with
      | Some n => (n =? PyFloat.scaled 2 m e)%Z
      | None => false
      end
  | _ => false
  end.

(** ** [hex_to_rgba] on any [str] *)

(** The strings above hold the code points 0 to 255, which covers every
    colour that the program converts. A Python [str] holds any code points,
    and [int] reads more of them than the digits and blanks of ASCII:
    before it reads a number it replaces every blank of Unicode by a space
    and every decimal digit of Unicode by the ASCII digit of its value.
    [Wide] is the conversion on such strings, as lists of code points, over
    the Unicode database of the interpreter. *)
Module Wide.

Definition str : Type := list N.

(** The code points of a string of the first 256. *)
Fixpoint of_string (s : string) : str :=
  match s with
  | EmptyString => []
  | String c s' => N_of_ascii c :: of_string s'
  end.

(** [s.lstrip(chars)]. *)
Fixpoint lstrip (chars s : str) : str :=
  match s with
  | [] => []
  | c :: s' => if existsb (N.eqb c) chars then lstrip chars s' else s
  end.

(** [s[i:j]] for indices [0 <= i <= j]. *)
Definition slice (s : str) (i j : nat) : str := take (j - i) (drop i s).

Section Database.

(** The database, consulted for the code points from 128 on: whether a code
    point is a blank, and the value of a code point that is a decimal
    digit. Below 128 the digits and blanks are those of [Int16]. *)
Variable decimal : N -> option N.
Variable blank : N -> bool.

(** What [int] reads in place of [s]: the ASCII code points as they are, a
    space for a blank, the ASCII digit for a decimal digit; the text ends
    with a [?] at the first code point that is none of these. *)
Fixpoint to_ascii (s : str) : string :=
  match s with
  | [] => EmptyString
  | c :: s' =>
      if (c <? 128)%N then String (ascii_of_N c) (to_ascii s')
      else if blank c then String " " (to_ascii s')
      else match decimal c with
           | Some d =>
               if (d <? 10)%N then String (ascii_of_N (48 + d)) (to_ascii s')
               else "?"
           | None => "?"
           end
  end.

(** [int(s, 16)]. *)
Definition int16 (s : str) : result Z := Int16.int (to_ascii s).

Definition hex_to_rgba (hex_color : str) (alpha : float) : result string :=
  let hex_color := lstrip [35%N] hex_color in
  r ← int16 (slice hex_color 0 2);
  g ← int16 (slice hex_color 2 4);
  b ← int16 (slice hex_color 4 6);
  Ok (rgba r g b alpha).

(** The value of a code point as a digit of base 16: a digit of ASCII from
    0 to 9, a to f or A to F, or any other decimal digit of the database. *)
Definition digit (c : N) : option Z :=
  if (c <? 128)%N then Int16.digit (ascii_of_N c)
  else if blank c then None
  else match decimal c with
       | Some d => if (d <? 10)%N then Some (Z.of_N d) else None
       | None => None
       end.

(** A code point that a number of base 16 of at most two characters may
    hold: a digit, a sign, or a blank. *)
Definition accepted (c : N) : bool :=
  if (c <? 128)%N then accepted (ascii_of_N c)
  else blank c || bool_decide (is_Some (digit c)).

End Database.

(** The strings of ASCII alone. *)
Fixpoint ascii_only (s : string) : bool :=
  match s with
  | EmptyString => true
  | String c s' => (N_of_ascii c <? 128)%N && ascii_only s'
  end.

(** A database for examples: the Arabic-Indic digits, and the blanks NEL,
    no-break space and em space. *)
Definition arabic_indic (c : N) : option N :=
  if (1632 <=? c)%N && (c <=? 1641)%N then Some (c - 1632)%N else None.

Definition three_blanks (c : N) : bool :=
  (c =? 133)%N || (c =? 160)%N || (c =? 8195)%N.

End Wide.

(** ** Tactics *)

(** Lookups in a file system after writes to paths that are literals. *)
Ltac lookup_paths :=
  repeat first
    [ rewrite lookup_insert_eq
    | rewrite lookup_insert_ne by discriminate ].

(** [writable] after a run; [Hh] and [Hp] name the two target paths. *)
Ltac still_writable Hh Hp :=
  unfold writable; rewrite Hh, Hp; cbn [files show print];
  repeat apply conj; lookup_paths;
  first [ right; assumption | assumption | discriminate ].

(** The edge of the assembled graph at position [i] of the link list. *)
Ltac edge_at i := exists i; split; reflexivity.

(** * Properties *)

(** ** The result monad *)

Lemma bind_Ok_inv {A B} (f : A -> result B) (r : result A) (b : B) :
  r ≫= f = Ok b -> exists a, r = Ok a /\ f a = Ok b.
Proof.
  destruct r as [a|e]; simpl; intros H; [|discriminate].
  exists a. split; [reflexivity | exact H].
Qed.

Lemma mapM_Ok_Forall2 {A B} (f : A -> result B) (l : list A) (k : list B) :
  mapM f l = Ok k -> Forall2 (fun x y => f x = Ok y) l k.
Proof.
  revert k. induction l as [|x l IH]; intros k H; simpl in H.
  - injection H as <-. constructor.
  - apply bind_Ok_inv in H as (y & Hy & H).
    apply bind_Ok_inv in H as (k' & Hk' & H).
    injection H as <-. constructor; [exact Hy | apply IH, Hk'].
Qed.

Lemma mapM_Ok_length {A B} (f : A -> result B) (l : list A) (k : list B) :
  mapM f l = Ok k -> length k = length l.
Proof.
  intros H. symmetry. eapply Forall2_length, mapM_Ok_Forall2, H.
Qed.

Lemma getitem_in_range {A} (l : list A) (i : Z) :
  (0 <= i < Z.of_nat (length l))%Z ->
  exists a, getitem l i = Ok a /\ l !! Z.to_nat i = Some a.
Proof.
  intros [H0 H1]. unfold getitem.
  destruct (Z.ltb_spec i 0) as [Hneg|_]; [lia|].
  destruct (Z.ltb_spec i 0) as [Hneg|_]; [lia|].
  destruct (lookup_lt_is_Some_2 l (Z.to_nat i)) as [a Ha]; [lia|].
  exists a. rewrite Ha. split; reflexivity.
Qed.

(** ** The literals of the constant table *)

(** Every literal of the table is the float nearest to the decimal that the
    source writes; [milli] gives that decimal back. *)
Lemma literals_read_exactly :
  Forall (fun zx : Z * float =>
            reads_as zx.1 zx.2 = true /\ PyFloat.milli zx.2 = Some zx.1)
    [ (47000, 47.0%float); (9200, 9.2%float); (6700, 6.7%float);
      (9377, 9.377%float);
      (44379, COGS); (27898, GROSS_PROFIT);
      (20199, OPERATING_EXPENSES); (7699, OPERATING_PROFIT);
      (5638, NET_PROFIT); (2118, TAXES); (56, OTHER);
      (6277, INDUSTRIAL); (8038, COMMERCIAL); (4069, ADMINISTRATIVE);
      (10, R_AND_D); (936, HEADQTR); (868, DEPRECIATION);
      (37024, RAW_MATERIAL); (5365, LABOR_COSTS); (1990, OTHER_COGS) ]%Z.
Proof. repeat constructor; vm_compute; reflexivity. Qed.

(** ** The assembled graph *)

Lemma build_sankey_data_Ok : build_sankey_data = Ok assembled.
Proof. vm_compute. reflexivity. Qed.

Lemma build_sankey_data_inv (d : sankey_data) :
  build_sankey_data = Ok d -> d = assembled.
Proof. rewrite build_sankey_data_Ok. intros H. injection H as <-. reflexivity. Qed.

Lemma edges_increasing :
  Forall (fun st : Z * Z => (0 <= st.1 < st.2)%Z /\ (st.2 < 21)%Z)
         (zip (sources assembled) (targets assembled)).
Proof. unfold assembled; simpl. repeat constructor; simpl; lia. Qed.

Lemma edge_increasing (s t : Z) :
  edge assembled s t -> (0 <= s < t)%Z /\ (t < 21)%Z.
Proof.
  intros (i & Hs & Ht).
  assert (Hz : zip (sources assembled) (targets assembled) !! i = Some (s, t)).
  { apply lookup_zip_with_Some. exists s, t. auto. }
  exact (proj1 (Forall_lookup _ _) edges_increasing i (s, t) Hz).
Qed.

Lemma path_increasing (a b : Z) : tc (edge assembled) a b -> (a < b)%Z.
Proof.
  induction 1 as [x y H|x y z H _ IH].
  - apply edge_increasing in H. lia.
  - apply edge_increasing in H. lia.
Qed.

(** C1, as the code has it: [build_sankey_data] assembles 21 nodes and 20
    edges, in the order of declaration: the products, then revenue, then
    each level of the breakdown outward; the labels and colours follow the
    node list, and every edge names its two nodes by a position between 0
    and 20. *)
Theorem C1_node_and_edge_lists :
  exists d nd ls,
    build_sankey_data = Ok d /\ node_data = Ok nd /\ links = Ok ls /\
    length nd = 21 /\ length (labels d) = 21 /\ length (node_colors d) = 21 /\
    length ls = 20 /\ length (sources d) = 20 /\ length (targets d) = 20 /\
    length (values d) = 20 /\ length (link_colors d) = 20 /\
    nd.*1 = PRODUCTS.*1 ++ ["Revenue"] ++ ["Gross Profit"; "COGS"]
            ++ ["Operating Profit"; "Operating Expenses"]
            ++ ["Net Profit"; "Taxes"; "Other"]
            ++ ["Industrial"; "Commercial"; "Administrative"; "R & D";
                "Headqtr."; "Depreciation"]
            ++ ["Raw Material"; "Labor Costs"; "Other Costs"] /\
    labels d = (fun nv : string * float => label nv.1 nv.2) <$> nd /\
    zip (sources d) (targets d) =
      [ (0, 4); (1, 4); (2, 4); (3, 4); (4, 5); (4, 6); (5, 7); (5, 8);
        (7, 9); (7, 10); (7, 11); (8, 12); (8, 13); (8, 14); (8, 15);
        (8, 16); (8, 17); (6, 18); (6, 19); (6, 20) ]%Z /\
    values d = ls.*2 /\
    Forall (fun st : Z * Z =>
              (0 <= st.1 < Z.of_nat (length nd))%Z /\
              (0 <= st.2 < Z.of_nat (length nd))%Z)
           (zip (sources d) (targets d)).
Proof.
  destruct node_data as [nd|e] eqn:Hnd; [|vm_compute in Hnd; discriminate].
  destruct links as [ls|e] eqn:Hls; [|vm_compute in Hls; discriminate].
  exists assembled, nd, ls.
  vm_compute in Hnd. injection Hnd as <-.
  vm_compute in Hls. injection Hls as <-.
  split; [exact build_sankey_data_Ok|].
  repeat (split; [reflexivity|]).
  eapply Forall_impl; [exact edges_increasing|].
  intros [s t]; simpl. lia.
Qed.

(** C1, against the count of the specification: the edge list has 20
    entries, not 19. *)
Lemma C1_edge_list_has_20_entries :
  exists d, build_sankey_data = Ok d /\
            length (sources d) = 20 /\ length (sources d) <> 19.
Proof.
  exists assembled. split; [exact build_sankey_data_Ok|].
  split; [reflexivity | discriminate].
Qed.

(** C4: the revenue is the sum of the four product figures, and for the
    literals 47.0, 9.2, 6.7 and 9.377 that sum is exactly the float 72.277,
    whether the additions are plain or compensated; read as decimals the
    figures add up to 72.277 as well. *)
Theorem C4_revenue_is_product_sum :
  REVENUE = sum (dict_values PRODUCTS) /\
  dict_values PRODUCTS = [47.0; 9.2; 6.7; 9.377]%float /\
  REVENUE = 72.277%float /\
  sum_compensated (dict_values PRODUCTS) = 72.277%float /\
  PyFloat.repr REVENUE = "72.277" /\
  mapM PyFloat.milli (dict_values PRODUCTS) = Some [47000; 9200; 6700; 9377]%Z /\
  total_milli (dict_values PRODUCTS) = Some 72277%Z /\
  PyFloat.milli REVENUE = Some 72277%Z.
Proof.
  split; [reflexivity|].
  split; [reflexivity|].
  split; [vm_compute; reflexivity|].
  split; [vm_compute; reflexivity|].
  split; [vm_compute; reflexivity|].
  split; [vm_compute; reflexivity|].
  split; vm_compute; reflexivity.
Qed.

(** C8: every edge of the assembled graph goes from a position to a
    strictly greater one, both within the 21 nodes; so the lookup of the
    target's colour succeeds, and no path of edges comes back to its start. *)
Theorem C8_edges_in_bounds_and_acyclic (d : sankey_data) :
  build_sankey_data = Ok d ->
  length (node_colors d) = 21 /\
  (forall i s t,
      sources d !! i = Some s -> targets d !! i = Some t ->
      (0 <= s < t)%Z /\ (t < Z.of_nat (length (node_colors d)))%Z /\
      is_Ok (getitem (node_colors d) s) /\ is_Ok (getitem (node_colors d) t)) /\
  (forall n, ~ tc (edge d) n n).
Proof.
  intros ->%build_sankey_data_inv.
  split; [reflexivity|]. split.
  - intros i s t Hs Ht.
    destruct (edge_increasing s t) as [Hst Ht21]; [exists i; auto|].
    assert (Hlen : length (node_colors assembled) = 21) by reflexivity.
    rewrite Hlen.
    split; [exact Hst|]. split; [exact Ht21|].
    split.
    + destruct (getitem_in_range (node_colors assembled) s) as (c & Hc & _);
        [rewrite Hlen; lia | exists c; exact Hc].
    + destruct (getitem_in_range (node_colors assembled) t) as (c & Hc & _);
        [rewrite Hlen; lia | exists c; exact Hc].
  - intros n Hn. apply path_increasing in Hn. lia.
Qed.

Lemma C8_witness :
  build_sankey_data = Ok assembled /\
  length (node_colors assembled) = 21 /\
  (forall i s t,
      sources assembled !! i = Some s -> targets assembled !! i = Some t ->
      (0 <= s < t)%Z /\ (t < Z.of_nat (length (node_colors assembled)))%Z /\
      is_Ok (getitem (node_colors assembled) s) /\
      is_Ok (getitem (node_colors assembled) t)) /\
  (forall n, ~ tc (edge assembled) n n).
Proof.
  split; [vm_compute; reflexivity|].
  apply (C8_edges_in_bounds_and_acyclic assembled).
  vm_compute; reflexivity.
Defined.

(** C10: the lists of the returned dictionary are parallel: the labels and
    the node colours are as many as the nodes, and the sources, targets,
    values and link colours are as many as the links. *)
Theorem C10_parallel_lists (d : sankey_data) :
  build_sankey_data = Ok d ->
  exists nd ls,
    node_data = Ok nd /\ links = Ok ls /\
    length (labels d) = length nd /\
    length (node_colors d) = length nd /\
    length (sources d) = length ls /\
    length (targets d) = length ls /\
    length (values d) = length ls /\
    length (link_colors d) = length ls.
Proof.
  unfold build_sankey_data. intros H.
  apply bind_Ok_inv in H as (nd & Hnd & H).
  apply bind_Ok_inv in H as (cs & Hcs & H).
  apply bind_Ok_inv in H as (ls & Hls & H).
  apply bind_Ok_inv in H as (lc & Hlc & H).
  injection H as <-. simpl.
  exists nd, ls.
  split; [exact Hnd|]. split; [exact Hls|].
  apply mapM_Ok_length in Hlc. rewrite length_fmap in Hlc.
  apply mapM_Ok_length in Hcs.
  assert (Hn : length nd = 21).
  { apply mapM_Ok_length in Hnd. exact Hnd. }
  rewrite !length_fmap.
  repeat split; try reflexivity; [|exact Hlc].
  rewrite Hcs, Hn. reflexivity.
Qed.

Lemma C10_witness :
  build_sankey_data = Ok assembled /\
  exists nd ls,
    node_data = Ok nd /\ links = Ok ls /\
    length (labels assembled) = length nd /\
    length (node_colors assembled) = length nd /\
    length (sources assembled) = length ls /\
    length (targets assembled) = length ls /\
    length (values assembled) = length ls /\
    length (link_colors assembled) = length ls.
Proof.
  split; [vm_compute; reflexivity|].
  apply (C10_parallel_lists assembled).
  vm_compute; reflexivity.
Defined.

(** ** Formatting with two decimals *)

Lemma uint_all_digits (d : Decimal.uint) :
  all_digits (NilEmpty.string_of_uint d) = true.
Proof. induction d; simpl; auto. Qed.

Lemma of_int_digits (z : Z) :
  (0 <= z)%Z -> Str.of_int z <> "" /\ all_digits (Str.of_int z) = true.
Proof.
  intros Hz. unfold Str.of_int.
  destruct z as [|p|p]; [split; [discriminate | reflexivity] | idtac | lia].
  simpl. unfold NilZero.string_of_uint.
  pose proof (uint_all_digits (Pos.to_uint p)) as Hd.
  destruct (Pos.to_uint p); simpl in *; (split; [discriminate | assumption]).
Qed.

Lemma digit_char_is_digit (d : Z) :
  (0 <= d <= 9)%Z -> is_digit (PyFloat.digit_char d) = true.
Proof.
  intros Hd.
  assert (H : (d = 0 \/ d = 1 \/ d = 2 \/ d = 3 \/ d = 4 \/ d = 5 \/ d = 6
               \/ d = 7 \/ d = 8 \/ d = 9)%Z) by lia.
  repeat (destruct H as [->|H]; [reflexivity|]). subst d. reflexivity.
Qed.

Lemma two_digits_shape (r : Z) :
  (0 <= r < 100)%Z ->
  String.length (PyFloat.two_digits r) = 2 /\
  all_digits (PyFloat.two_digits r) = true.
Proof.
  intros Hr. split; [reflexivity|].
  unfold PyFloat.two_digits. simpl.
  rewrite !digit_char_is_digit; [reflexivity| |].
  - pose proof (Z.mod_pos_bound r 10). lia.
  - assert (r / 10 < 10)%Z by (apply Z.div_lt_upper_bound; lia).
    assert (0 <= r / 10)%Z by (apply Z.div_pos; lia). lia.
Qed.

Lemma round_half_even_nonneg (q : Q) : (0 <= q)%Q -> (0 <= PyFloat.round_half_even q)%Z.
Proof.
  intros Hq. unfold PyFloat.round_half_even.
  pose proof (Qfloor_resp_le 0 q Hq) as Hf. change (Qfloor 0) with 0%Z in Hf.
  destruct (Qcompare _ _); [destruct (Z.even _)| |]; lia.
Qed.

Lemma scaled_nonneg (k : Z) (m : positive) (e : Z) : (0 <= PyFloat.scaled k m e)%Z.
Proof.
  apply round_half_even_nonneg. unfold PyFloat.value.
  repeat apply Qmult_le_0_compat; try apply Qpower_0_le;
    unfold Qle; simpl; lia.
Qed.

Lemma fixed2_two_decimals (n : Z) :
  (0 <= n)%Z -> two_decimals (PyFloat.fixed2 false n).
Proof.
  intros Hn. unfold PyFloat.fixed2.
  exists (Str.of_int (n / 100)), (PyFloat.two_digits (n mod 100)).
  destruct (of_int_digits (n / 100)) as [Hne Hd]; [apply Z.div_pos; lia|].
  destruct (two_digits_shape (n mod 100)) as [Hl Hf];
    [apply Z.mod_pos_bound; lia|].
  auto.
Qed.

(** Every finite float that is not negative is written with exactly two
    decimals. *)
Lemma format_2f_two_decimals (x : float) :
  nonneg_finite x = true -> two_decimals (PyFloat.format_2f x).
Proof.
  unfold nonneg_finite, PyFloat.format_2f.
  destruct (Prim2SF x) as [s|s| |s m e]; try discriminate;
    destruct s; try discriminate; intros _; apply fixed2_two_decimals.
  - lia.
  - apply scaled_nonneg.
Qed.

Lemma append_assoc (a b c : string) : (a +:+ b) +:+ c = a +:+ (b +:+ c).
Proof.
  induction a as [|x a IH]; [reflexivity|].
  change (String x ((a +:+ b) +:+ c) = String x (a +:+ b +:+ c)).
  f_equal. exact IH.
Qed.

(** The f-string of a label is its two lines, each in bold, joined by a
    line break. *)
Lemma label_markup (name : string) (value : float) :
  label name value = join "<br>" (bold <$> label_lines name value).
Proof.
  unfold label, label_lines, bold. simpl.
  rewrite !append_assoc. reflexivity.
Qed.

(** ** Link colours *)

(** C5: the colour of every link is the colour of its target node rendered
    with alpha 0.5: the node colour at the target's position is one of the
    three colours of the palette, and the link colour is the rendering of
    that very colour; for the cost colour #C0392B it has red 192, green 57,
    blue 43 and alpha 0.5, which is the colour of 12 of the 20 links. *)
Theorem C5_link_colour_of_target (d : sankey_data) (i : nat) (t : Z) :
  build_sankey_data = Ok d ->
  targets d !! i = Some t ->
  (0 <= t)%Z /\
  ((node_colors d !! Z.to_nat t = Some "#4A90D9" /\
    link_colors d !! i = Some "rgba(74, 144, 217, 0.5)") \/
   (node_colors d !! Z.to_nat t = Some "#27AE60" /\
    link_colors d !! i = Some "rgba(39, 174, 96, 0.5)") \/
   (node_colors d !! Z.to_nat t = Some "#C0392B" /\
    link_colors d !! i = Some "rgba(192, 57, 43, 0.5)")) /\
  COLORS !! "red" = Some "#C0392B" /\
  length (filter (fun x => x = "rgba(192, 57, 43, 0.5)") (link_colors d)) = 12.
Proof.
  intros ->%build_sankey_data_inv Ht.
  assert (Hlast : COLORS !! "red" = Some "#C0392B" /\
          length (filter (fun x => x = "rgba(192, 57, 43, 0.5)")
                    (link_colors assembled)) = 12)
    by (split; vm_compute; reflexivity).
  do 20 (destruct i as [|i];
         [ cbn in Ht; injection Ht as <-;
           split; [lia|]; split; [|exact Hlast];
           first [ left; split; reflexivity
                 | right; left; split; reflexivity
                 | right; right; split; reflexivity ] |]).
  discriminate.
Qed.

Lemma C5_witness :
  targets assembled !! 5%nat = Some 6%Z /\
  node_colors assembled !! 6%nat = Some "#C0392B" /\
  link_colors assembled !! 5%nat = Some "rgba(192, 57, 43, 0.5)".
Proof.
  split; [reflexivity|]. split; [reflexivity|].
  destruct (C5_link_colour_of_target assembled 5 6) as (_ & H & _);
    [vm_compute; reflexivity | reflexivity |].
  destruct H as [[H _]|[[H _]|[_ H]]]; [discriminate | discriminate | exact H].
Defined.

(** ** Conservation of flow *)

(** C2, as the constants have it: read as decimals, what flows into Revenue,
    Gross Profit and COGS equals what flows out of them: 72.277, 27.898 and
    44.379. *)
Theorem C2_flow_balance :
  exists d nd,
    build_sankey_data = Ok d /\ node_data = Ok nd /\
    position "Revenue" nd.*1 = Some 4%Z /\
    position "Gross Profit" nd.*1 = Some 5%Z /\
    position "COGS" nd.*1 = Some 6%Z /\
    (total_milli (inflow d 4) = Some 72277%Z /\
     total_milli (outflow d 4) = Some 72277%Z) /\
    (total_milli (inflow d 5) = Some 27898%Z /\
     total_milli (outflow d 5) = Some 27898%Z) /\
    (total_milli (inflow d 6) = Some 44379%Z /\
     total_milli (outflow d 6) = Some 44379%Z).
Proof.
  destruct node_data as [nd|e] eqn:Hnd; [|vm_compute in Hnd; discriminate].
  exists assembled, nd.
  vm_compute in Hnd. injection Hnd as <-.
  split; [exact build_sankey_data_Ok|].
  split; [reflexivity|].
  repeat apply conj; vm_compute; reflexivity.
Qed.

(** C2, against the balance at every internal node: Operating Profit, at
    position 7, receives 7.699 and passes on 7.812, as decimals and as
    floats. *)
Lemma C2_operating_profit_unbalanced :
  exists d in_ out_,
    build_sankey_data = Ok d /\
    labels d !! 7%nat = Some (label "Operating Profit" OPERATING_PROFIT) /\
    total_milli (inflow d 7) = Some in_ /\
    total_milli (outflow d 7) = Some out_ /\
    in_ = 7699%Z /\ out_ = 7812%Z /\ in_ <> out_ /\
    PyFloat.repr (sum (inflow d 7)) = "7.699" /\
    PyFloat.repr (sum (outflow d 7)) = "7.812" /\
    (sum (inflow d 7) =? sum (outflow d 7))%float = false.
Proof.
  exists assembled, 7699%Z, 7812%Z.
  split; [exact build_sankey_data_Ok|].
  repeat apply conj; vm_compute; first [reflexivity | discriminate].
Qed.

(** ** [hex_to_rgba] *)

Lemma digit_facts (c : ascii) (v : Z) :
  Int16.digit c = Some v ->
  (0 <= v < 16)%Z /\ Int16.space c = false /\ Int16.underscore c = false /\
  Ascii.eqb c "-" = false /\ Ascii.eqb c "+" = false /\
  Ascii.eqb c "x" = false /\ Ascii.eqb c "X" = false /\ Ascii.eqb c "#" = false.
Proof.
  destruct c as [[] [] [] [] [] [] [] []]; vm_compute; intros H; try discriminate;
    injection H as <-; repeat split; discriminate.
Qed.

Lemma rejected_facts (c : ascii) :
  accepted c = false ->
  Int16.digit c = None /\ Int16.space c = false /\
  Ascii.eqb c "-" = false /\ Ascii.eqb c "+" = false.
Proof.
  destruct c as [[] [] [] [] [] [] [] []]; vm_compute; intros H; try discriminate;
    repeat split.
Qed.

(** Two digits of base 16 are read as one byte. *)
Lemma parse_two_digits (c d : ascii) (u v : Z) :
  Int16.digit c = Some u -> Int16.digit d = Some v ->
  Int16.parse (String c (String d EmptyString)) = Some (16 * u + v)%Z.
Proof.
  intros Hc Hd.
  destruct (digit_facts c u Hc) as (_ & Hsc & Huc & Hmc & Hpc & _).
  destruct (digit_facts d v Hd) as (_ & Hsd & Hud & _ & _ & Hxd & HXd & _).
  unfold Int16.parse. cbn [Int16.lskip]. rewrite Hsc. cbn [Int16.rskip].
  rewrite Hsd, Hmc, Hpc. unfold Int16.magnitude, Int16.prefix.
  rewrite Hxd, HXd. cbn [orb]. rewrite andb_false_r.
  rewrite Huc. cbn [Int16.digits]. rewrite Huc, Hc, Hud, Hd.
  reflexivity.
Qed.

Lemma magnitude_rejected (c : ascii) :
  Int16.digit c = None -> Int16.magnitude (String c EmptyString) = None.
Proof.
  intros Hc. unfold Int16.magnitude. cbn [Int16.prefix Int16.digits].
  destruct (Int16.underscore c); [reflexivity|]. rewrite Hc. reflexivity.
Qed.

Lemma parse_rejected_1 (c : ascii) :
  accepted c = false -> Int16.parse (String c EmptyString) = None.
Proof.
  intros (Hd & Hs & Hm & Hp)%rejected_facts.
  unfold Int16.parse. cbn [Int16.lskip]. rewrite Hs. cbn [Int16.rskip].
  rewrite Hs, Hm, Hp. apply magnitude_rejected, Hd.
Qed.

Lemma parse_rejected_l (c d : ascii) :
  accepted c = false -> Int16.parse (String c (String d EmptyString)) = None.
Proof.
  intros (Hd & Hs & Hm & Hp)%rejected_facts.
  unfold Int16.parse. cbn [Int16.lskip]. rewrite Hs. cbn [Int16.rskip].
  destruct (Int16.space d); rewrite ?Hs, Hm, Hp;
    [apply magnitude_rejected, Hd|].
  unfold Int16.magnitude, Int16.prefix.
  destruct (_ && _).
  - destruct (Int16.underscore c); reflexivity.
  - destruct (Int16.underscore c) eqn:Hu; [reflexivity|].
    cbn [Int16.digits]. rewrite Hu, Hd. reflexivity.
Qed.

Lemma parse_rejected_r (c d : ascii) :
  accepted c = false -> Int16.parse (String d (String c EmptyString)) = None.
Proof.
  intros (Hd & Hs & Hm & Hp)%rejected_facts.
  unfold Int16.parse. cbn [Int16.lskip].
  destruct (Int16.space d) eqn:Hsd.
  - cbn [Int16.lskip]. rewrite Hs. cbn [Int16.rskip].
    rewrite Hs, Hm, Hp. apply magnitude_rejected, Hd.
  - cbn [Int16.rskip]. rewrite Hs.
    destruct (Ascii.eqb d "-"); [rewrite magnitude_rejected; auto|].
    destruct (Ascii.eqb d "+"); [apply magnitude_rejected, Hd|].
    unfold Int16.magnitude, Int16.prefix.
    destruct (_ && _); [reflexivity|].
    destruct (Int16.underscore d) eqn:Hud; [reflexivity|].
    cbn [Int16.digits]. rewrite Hud.
    destruct (Int16.digit d); [|reflexivity].
    destruct (Int16.underscore c); [reflexivity|]. rewrite Hd. reflexivity.
Qed.

Lemma lstrip_hashes (n : nat) (t : string) :
  Str.lstrip "#" (Str.repeat "#" n +:+ t) = Str.lstrip "#" t.
Proof.
  induction n as [|n IH]; [reflexivity|].
  change (Str.lstrip "#" (String "#" (Str.repeat "#" n +:+ t)) = Str.lstrip "#" t).
  cbn [Str.lstrip Str.mem]. rewrite Ascii.eqb_refl. exact IH.
Qed.

Lemma lstrip_digit (c : ascii) (v : Z) (s : string) :
  Int16.digit c = Some v -> Str.lstrip "#" (String c s) = String c s.
Proof.
  intros (_ & _ & _ & _ & _ & _ & _ & Hh)%digit_facts.
  cbn [Str.lstrip Str.mem]. rewrite Hh. reflexivity.
Qed.

(** The conversion raises as soon as one of its three slices is no number. *)
Lemma hex_to_rgba_raises (s : string) (alpha : float) :
  Int16.parse (Str.slice (Str.lstrip "#" s) 0 2) = None \/
  Int16.parse (Str.slice (Str.lstrip "#" s) 2 4) = None \/
  Int16.parse (Str.slice (Str.lstrip "#" s) 4 6) = None ->
  hex_to_rgba s alpha = Raise ValueError.
Proof.
  unfold hex_to_rgba, Int16.int. intros H.
  destruct (Int16.parse (Str.slice _ 0 2)); [|reflexivity].
  destruct (Int16.parse (Str.slice _ 2 4)); [|reflexivity].
  destruct (Int16.parse (Str.slice _ 4 6)); [|reflexivity].
  destruct H as [H|[H|H]]; discriminate.
Qed.

Lemma hex_to_rgba_six (s rest : string) (d1 d2 d3 d4 d5 d6 : ascii)
    (v1 v2 v3 v4 v5 v6 : Z) (alpha : float) :
  Str.lstrip "#" s
    = String d1 (String d2 (String d3 (String d4 (String d5 (String d6 rest))))) ->
  Int16.digit d1 = Some v1 -> Int16.digit d2 = Some v2 ->
  Int16.digit d3 = Some v3 -> Int16.digit d4 = Some v4 ->
  Int16.digit d5 = Some v5 -> Int16.digit d6 = Some v6 ->
  hex_to_rgba s alpha
    = Ok (rgba (16 * v1 + v2) (16 * v3 + v4) (16 * v5 + v6) alpha).
Proof.
  intros Hs H1 H2 H3 H4 H5 H6. unfold hex_to_rgba, Int16.int. rewrite Hs.
  cbn [Str.slice Str.take Str.drop Nat.sub].
  rewrite (parse_two_digits d1 d2 v1 v2 H1 H2).
  rewrite (parse_two_digits d3 d4 v3 v4 H3 H4).
  rewrite (parse_two_digits d5 d6 v5 v6 H5 H6).
  reflexivity.
Qed.

(** C9: whatever the number of leading [#] characters, when six digits of
    base 16 follow them the conversion succeeds with the three bytes they
    spell, whatever characters come after the sixth. *)
Theorem C9_extra_characters_ignored (n : nat) (rest : string)
    (d1 d2 d3 d4 d5 d6 : ascii) (v1 v2 v3 v4 v5 v6 : Z) (alpha : float) :
  Int16.digit d1 = Some v1 -> Int16.digit d2 = Some v2 ->
  Int16.digit d3 = Some v3 -> Int16.digit d4 = Some v4 ->
  Int16.digit d5 = Some v5 -> Int16.digit d6 = Some v6 ->
  let digits6 := fun tail =>
    String d1 (String d2 (String d3 (String d4 (String d5 (String d6 tail))))) in
  Str.lstrip "#" (Str.repeat "#" n +:+ digits6 rest) = digits6 rest /\
  hex_to_rgba (Str.repeat "#" n +:+ digits6 rest) alpha
    = Ok (rgba (16 * v1 + v2) (16 * v3 + v4) (16 * v5 + v6) alpha) /\
  hex_to_rgba (Str.repeat "#" n +:+ digits6 rest) alpha
    = hex_to_rgba (digits6 "") alpha /\
  (0 <= 16 * v1 + v2 <= 255)%Z /\ (0 <= 16 * v3 + v4 <= 255)%Z /\
  (0 <= 16 * v5 + v6 <= 255)%Z.
Proof.
  intros H1 H2 H3 H4 H5 H6 digits6.
  assert (Hs : forall tail,
             Str.lstrip "#" (Str.repeat "#" n +:+ digits6 tail) = digits6 tail).
  { intros tail. rewrite lstrip_hashes. exact (lstrip_digit d1 v1 _ H1). }
  split; [apply Hs|].
  split; [exact (hex_to_rgba_six _ _ _ _ _ _ _ _ _ _ _ _ _ _ alpha
                   (Hs rest) H1 H2 H3 H4 H5 H6)|].
  split.
  - rewrite (hex_to_rgba_six _ _ _ _ _ _ _ _ _ _ _ _ _ _ alpha
               (Hs rest) H1 H2 H3 H4 H5 H6).
    symmetry.
    exact (hex_to_rgba_six _ _ _ _ _ _ _ _ _ _ _ _ _ _ alpha
             (lstrip_digit d1 v1 _ H1) H1 H2 H3 H4 H5 H6).
  - apply digit_facts in H1 as [? _]. apply digit_facts in H2 as [? _].
    apply digit_facts in H3 as [? _]. apply digit_facts in H4 as [? _].
    apply digit_facts in H5 as [? _]. apply digit_facts in H6 as [? _].
    lia.
Qed.

Lemma C9_witness :
  hex_to_rgba "##4A90D9FF" 0.5%float = Ok (rgba 74 144 217 0.5%float) /\
  rgba 74 144 217 0.5%float = "rgba(74, 144, 217, 0.5)".
Proof.
  split; [|vm_compute; reflexivity].
  refine (proj1 (proj2 (C9_extra_characters_ignored 2 "FF"
    "4" "A" "9" "0" "D" "9" 4 10 9 0 13 9 0.5%float _ _ _ _ _ _)));
    vm_compute; reflexivity.
Defined.

Lemma slice_short (r : string) :
  String.length r < 5 -> Str.slice r 4 6 = "".
Proof.
  destruct r as [|c0 [|c1 [|c2 [|c3 [|c4 r]]]]]; simpl; intros H;
    try reflexivity; lia.
Qed.

(** A character among the first six that is no digit, sign or blank makes
    the slice it falls in unreadable. *)
Lemma slice_rejected (r : string) (i : nat) (c : ascii) :
  i < 6 -> String.get i r = Some c -> accepted c = false ->
  Int16.parse (Str.slice r 0 2) = None \/
  Int16.parse (Str.slice r 2 4) = None \/
  Int16.parse (Str.slice r 4 6) = None.
Proof.
  intros Hi Hget Hc.
  destruct r as [|c0 [|c1 [|c2 [|c3 [|c4 [|c5 r]]]]]];
    destruct i as [|[|[|[|[|[|i]]]]]]; try lia;
    simpl in Hget; try discriminate; injection Hget as ->;
    cbn [Str.slice Str.take Str.drop Nat.sub];
    rewrite ?(parse_rejected_1 c Hc), ?(parse_rejected_l c _ Hc),
      ?(parse_rejected_r c _ Hc); auto.
Qed.

(** C3, against the rejection of every input that is not exactly six digits
    after the marker: eight digits are accepted (the last two ignored), and
    so are five (the last one read alone). *)
Lemma C3_other_lengths_accepted :
  six_hex_digits (Str.lstrip "#" "#4A90D9FF") = false /\
  hex_to_rgba "#4A90D9FF" 0.5%float = Ok "rgba(74, 144, 217, 0.5)" /\
  six_hex_digits (Str.lstrip "#" "#4A90D") = false /\
  hex_to_rgba "#4A90D" 0.5%float = Ok "rgba(74, 144, 13, 0.5)".
Proof. repeat apply conj; vm_compute; reflexivity. Qed.

(** ** The exporter *)


Lemma mkdir_output (w : world) :
  files w !! OUTPUT_DIR = None \/ files w !! OUTPUT_DIR = Some Directory ->
  exists w',
    mkdir true OUTPUT_DIR w = Ok w' /\
    files w' !! OUTPUT_DIR = Some Directory /\
    (forall p, p <> OUTPUT_DIR -> files w' !! p = files w !! p) /\
    written w' = written w.
Proof.
  unfold mkdir. intros [H|H]; rewrite H.
  - eexists. split; [reflexivity|]. simpl.
    split; [apply lookup_insert_eq|].
    split; [|reflexivity].
    intros p Hp. apply lookup_insert_ne. congruence.
  - exists w. auto.
Qed.

Lemma write_file_Ok (p : string) (e : entry) (w : world) :
  parent p = OUTPUT_DIR ->
  files w !! p <> Some Directory ->
  files w !! OUTPUT_DIR = Some Directory ->
  write_file p e w =
    Ok {| files := <[p := e]> (files w); written := written w ++ [p];
          stdout := stdout w; shown := shown w |}.
Proof.
  intros Hpar Hp Hdir. unfold write_file. rewrite Hpar.
  change (match OUTPUT_DIR with
          | EmptyString => true
          | String _ _ =>
              match files w !! OUTPUT_DIR with
              | Some Directory => true
              | _ => false
              end
          end)
    with (match files w !! OUTPUT_DIR with
          | Some Directory => true
          | _ => false
          end).
  rewrite Hdir.
  destruct (files w !! p) as [[| |]|]; try reflexivity. congruence.
Qed.

Lemma html_path_eq :
  joinpath OUTPUT_DIR (OUTPUT_NAME +:+ ".html") = "output/sankey_chart.html".
Proof. reflexivity. Qed.

Lemma png_path_eq :
  joinpath OUTPUT_DIR (OUTPUT_NAME +:+ ".png") = "output/sankey_chart.png".
Proof. reflexivity. Qed.

(** One run of [main_with] from a writable world, for the two switches that
    the format decides. *)
Lemma main_with_run (fmt : string) (w : world) :
  writable w ->
  exists w',
    main_with fmt w = Ok w' /\
    new_writes w w' =
      (if str_in fmt ["html"; "both"] then ["output/sankey_chart.html"] else [])
      ++ (if str_in fmt ["png"; "both"] then ["output/sankey_chart.png"] else []) /\
    writable w'.
Proof.
  intros (Hdir & Hh & Hp).
  rewrite html_path_eq in Hh. rewrite png_path_eq in Hp.
  destruct create_sankey_chart as [fig|e] eqn:Hfig;
    [|vm_compute in Hfig; discriminate].
  destruct (mkdir_output w Hdir) as (w0 & Hmk & Hd0 & Hsame & Hwr).
  unfold main_with, new_writes. rewrite Hfig.
  cbn [mbind result_bind]. rewrite Hmk. cbn [mbind result_bind].
  rewrite html_path_eq, png_path_eq.
  assert (Hh0 : files w0 !! "output/sankey_chart.html" <> Some Directory)
    by (rewrite Hsame; [exact Hh | discriminate]).
  assert (Hp0 : files w0 !! "output/sankey_chart.png" <> Some Directory)
    by (rewrite Hsame; [exact Hp | discriminate]).
  unfold write_html, write_image.
  destruct (str_in fmt ["html"; "both"]); destruct (str_in fmt ["png"; "both"]).
  - rewrite (write_file_Ok "output/sankey_chart.html" _ w0 eq_refl Hh0 Hd0).
    cbn [mbind result_bind].
    rewrite write_file_Ok;
      [|reflexivity
       |cbn [files print]; lookup_paths; exact Hp0
       |cbn [files print]; lookup_paths; exact Hd0].
    cbn [mbind result_bind]. eexists. split; [reflexivity|].
    split; [|still_writable html_path_eq png_path_eq].
    cbn [written show print]. rewrite Hwr, <- !app_assoc, drop_app_length.
    reflexivity.
  - rewrite (write_file_Ok "output/sankey_chart.html" _ w0 eq_refl Hh0 Hd0).
    cbn [mbind result_bind]. eexists. split; [reflexivity|].
    split; [|still_writable html_path_eq png_path_eq].
    cbn [written show print]. rewrite Hwr, drop_app_length. reflexivity.
  - cbn [mbind result_bind].
    rewrite (write_file_Ok "output/sankey_chart.png" _ w0 eq_refl Hp0 Hd0).
    cbn [mbind result_bind]. eexists. split; [reflexivity|].
    split; [|still_writable html_path_eq png_path_eq].
    cbn [written show print]. rewrite Hwr, drop_app_length. reflexivity.
  - cbn [mbind result_bind]. eexists. split; [reflexivity|].
    split; [|still_writable html_path_eq png_path_eq].
    cbn [written show]. rewrite Hwr, drop_all. reflexivity.
Qed.

(** ** The conversion of every input *)

Lemma all_ascii_complete (c : ascii) : In c all_ascii.
Proof.
  rewrite <- (ascii_nat_embedding c). unfold all_ascii.
  apply in_map, in_seq. pose proof (nat_ascii_bounded c). lia.
Qed.

Lemma agrees_everywhere :
  forallb (fun c => forallb (agrees c) all_ascii) all_ascii = true.
Proof. vm_compute. reflexivity. Qed.

Lemma parse_two (c d : ascii) :
  Int16.parse (String c (String d EmptyString))
  = slice_value (String c (String d EmptyString)).
Proof.
  pose proof agrees_everywhere as H.
  rewrite forallb_forall in H. specialize (H c (all_ascii_complete c)).
  rewrite forallb_forall in H. specialize (H d (all_ascii_complete d)).
  unfold agrees in H. apply bool_decide_eq_true in H. exact H.
Qed.

Lemma parse_one (c : ascii) :
  Int16.parse (String c EmptyString) = slice_value (String c EmptyString).
Proof.
  destruct c as [[] [] [] [] [] [] [] []]; vm_compute; reflexivity.
Qed.

Lemma slice_length (r : string) (i : nat) :
  String.length (Str.slice r i (i + 2)) <= 2.
Proof.
  unfold Str.slice. replace (i + 2 - i) with 2 by lia.
  destruct (Str.drop i r) as [|c [|d t]]; simpl; lia.
Qed.

(** On a slice, [int(., 16)] is [slice_value]. *)
Lemma parse_slice (t : string) :
  String.length t <= 2 -> Int16.parse t = slice_value t.
Proof.
  destruct t as [|c [|d [|e t]]]; simpl; intros H.
  - reflexivity.
  - apply parse_one.
  - apply parse_two.
  - lia.
Qed.


Lemma parse_slices (r : string) :
  Int16.parse (Str.slice r 0 2) = slice_value (Str.slice r 0 2) /\
  Int16.parse (Str.slice r 2 4) = slice_value (Str.slice r 2 4) /\
  Int16.parse (Str.slice r 4 6) = slice_value (Str.slice r 4 6).
Proof.
  split; [exact (parse_slice _ (slice_length r 0))|].
  split; [exact (parse_slice _ (slice_length r 2))|].
  exact (parse_slice _ (slice_length r 4)).
Qed.

(** X1: for every input of code points 0..255, [hex_to_rgba] is decided by
    the three slices of what follows the markers, each read as
    [slice_value] reads it: a digit alone, two digits, a digit after a sign
    or a blank, or a digit before a blank. Nothing else is accepted (no
    [0x] prefix, no underscore), and the only exception is [ValueError]. *)
Theorem X1_hex_to_rgba_by_slices (s : string) (alpha : float) :
  hex_to_rgba s alpha =
    match slice_value (Str.slice (Str.lstrip "#" s) 0 2),
          slice_value (Str.slice (Str.lstrip "#" s) 2 4),
          slice_value (Str.slice (Str.lstrip "#" s) 4 6) with
    | Some r, Some g, Some b => Ok (rgba r g b alpha)
    | _, _, _ => Raise ValueError
    end.
Proof.
  unfold hex_to_rgba, Int16.int.
  destruct (parse_slices (Str.lstrip "#" s)) as (-> & -> & ->).
  destruct (slice_value (Str.slice _ 0 2)); [|reflexivity].
  destruct (slice_value (Str.slice _ 2 4)); [|reflexivity].
  destruct (slice_value (Str.slice _ 4 6)); reflexivity.
Qed.

Lemma hex_to_rgba_Ok_inv (s : string) (alpha : float) (x : string) :
  hex_to_rgba s alpha = Ok x ->
  exists r g b,
    x = rgba r g b alpha /\
    slice_value (Str.slice (Str.lstrip "#" s) 0 2) = Some r /\
    slice_value (Str.slice (Str.lstrip "#" s) 2 4) = Some g /\
    slice_value (Str.slice (Str.lstrip "#" s) 4 6) = Some b.
Proof.
  unfold hex_to_rgba, Int16.int.
  destruct (parse_slices (Str.lstrip "#" s)) as (-> & -> & ->).
  destruct (slice_value (Str.slice _ 0 2)) as [r|]; [|discriminate].
  destruct (slice_value (Str.slice _ 2 4)) as [g|]; [|discriminate].
  destruct (slice_value (Str.slice _ 4 6)) as [b|]; [|discriminate].
  simpl. intros H. injection H as <-. exists r, g, b. auto.
Qed.

Lemma digit_range (c : ascii) (v : Z) : Int16.digit c = Some v -> (0 <= v < 16)%Z.
Proof. intros H. exact (proj1 (digit_facts c v H)). Qed.

Lemma slice_value_bounds (t : string) (v : Z) :
  slice_value t = Some v ->
  (-15 <= v <= 255)%Z /\ (Str.mem "-" t = false -> 0 <= v)%Z.
Proof.
  destruct t as [|c [|d [|e t]]]; unfold slice_value; cbn [Str.mem];
    try discriminate.
  - intros H%digit_range. lia.
  - destruct (Int16.digit c) as [u|] eqn:Hc, (Int16.digit d) as [w|] eqn:Hd;
      try apply digit_range in Hc; try apply digit_range in Hd.
    + intros [= <-]. lia.
    + destruct (Int16.space d); intros [= <-]. lia.
    + rewrite (Ascii.eqb_sym "-" c).
      destruct (Ascii.eqb c "-"); [intros [= <-]; split; [lia | discriminate]|].
      destruct (_ || _); intros [= <-]. lia.
    + discriminate.
Qed.

Lemma mem_slices (a : ascii) (r : string) :
  Str.mem a (Str.take 6 r) = false ->
  Str.mem a (Str.slice r 0 2) = false /\
  Str.mem a (Str.slice r 2 4) = false /\
  Str.mem a (Str.slice r 4 6) = false.
Proof.
  destruct r as [|c0 [|c1 [|c2 [|c3 [|c4 [|c5 r]]]]]];
    cbn [Str.take Str.slice Str.drop Str.mem Nat.sub]; intros H;
    repeat match goal with
           | H : _ || _ = false |- _ => apply orb_false_elim in H as [? H]
           end;
    repeat apply conj;
    repeat match goal with
           | H : ?x = false |- context [?x] => rewrite H
           end; reflexivity.
Qed.

(** X2: when the conversion succeeds, each channel lies between -15 and
    255, and none is negative unless a minus sign is among the six
    characters read. *)
Theorem X2_channel_bounds (s : string) (alpha : float) (x : string) :
  hex_to_rgba s alpha = Ok x ->
  exists r g b,
    x = rgba r g b alpha /\
    (-15 <= r <= 255)%Z /\ (-15 <= g <= 255)%Z /\ (-15 <= b <= 255)%Z /\
    (Str.mem "-" (Str.take 6 (Str.lstrip "#" s)) = false ->
     (0 <= r)%Z /\ (0 <= g)%Z /\ (0 <= b)%Z).
Proof.
  intros (r & g & b & -> & Hr & Hg & Hb)%hex_to_rgba_Ok_inv.
  exists r, g, b.
  apply slice_value_bounds in Hr as [Hr Hr0].
  apply slice_value_bounds in Hg as [Hg Hg0].
  apply slice_value_bounds in Hb as [Hb Hb0].
  repeat (split; [first [reflexivity | assumption]|]).
  intros (H1 & H2 & H3)%mem_slices. auto.
Qed.

Lemma X2_witness :
  hex_to_rgba "#-F0A+1" 0.5%float = Ok (rgba (-15) 10 1 0.5%float) /\
  exists r g b,
    rgba (-15) 10 1 0.5%float = rgba r g b 0.5%float /\
    (-15 <= r <= 255)%Z /\ (-15 <= g <= 255)%Z /\ (-15 <= b <= 255)%Z /\
    (Str.mem "-" (Str.take 6 (Str.lstrip "#" "#-F0A+1")) = false ->
     (0 <= r)%Z /\ (0 <= g)%Z /\ (0 <= b)%Z).
Proof.
  split; [vm_compute; reflexivity|].
  apply (X2_channel_bounds "#-F0A+1" 0.5%float).
  vm_compute; reflexivity.
Defined.

Lemma slices_of_take (r : string) :
  Str.slice (Str.take 6 r) 0 2 = Str.slice r 0 2 /\
  Str.slice (Str.take 6 r) 2 4 = Str.slice r 2 4 /\
  Str.slice (Str.take 6 r) 4 6 = Str.slice r 4 6.
Proof.
  destruct r as [|c0 [|c1 [|c2 [|c3 [|c4 [|c5 r]]]]]]; repeat split.
Qed.

(** X3: the result, success or failure, depends only on the six characters
    that follow the leading markers: two inputs that agree on them are
    converted alike, and markers put in front change nothing. *)
Theorem X3_first_six_decide (s t : string) (n : nat) (alpha : float) :
  Str.take 6 (Str.lstrip "#" s) = Str.take 6 (Str.lstrip "#" t) ->
  hex_to_rgba s alpha = hex_to_rgba t alpha /\
  hex_to_rgba (Str.repeat "#" n +:+ s) alpha = hex_to_rgba s alpha.
Proof.
  intros H. split.
  - unfold hex_to_rgba.
    destruct (slices_of_take (Str.lstrip "#" s)) as (<- & <- & <-).
    destruct (slices_of_take (Str.lstrip "#" t)) as (<- & <- & <-).
    rewrite H. reflexivity.
  - unfold hex_to_rgba. rewrite lstrip_hashes. reflexivity.
Qed.

Lemma X3_witness :
  hex_to_rgba "#27AE60 and more" 0.5%float = hex_to_rgba "27AE60" 0.5%float /\
  hex_to_rgba "###27AE60 and more" 0.5%float
  = hex_to_rgba "#27AE60 and more" 0.5%float.
Proof.
  apply (X3_first_six_decide "#27AE60 and more" "27AE60" 2 0.5%float).
  vm_compute; reflexivity.
Defined.

(** ** The conversion of any [str] *)

Section WideConversion.

Variable decimal : N -> option N.
Variable blank : N -> bool.

Lemma decimal_digit (d : N) :
  (d < 10)%N -> Int16.digit (ascii_of_N (48 + d)) = Some (Z.of_N d).
Proof.
  intros H.
  assert (Hd : (d = 0 \/ d = 1 \/ d = 2 \/ d = 3 \/ d = 4 \/ d = 5 \/ d = 6
                \/ d = 7 \/ d = 8 \/ d = 9)%N) by lia.
  repeat (destruct Hd as [->|Hd]; [reflexivity|]). subst d. reflexivity.
Qed.

(** One code point is read as one character, which is a digit of the same
    value when the code point is one, and is not accepted when the code
    point is not. *)
Lemma to_ascii_one (c : N) :
  exists x,
    Wide.to_ascii decimal blank [c] = String x EmptyString /\
    (forall v, Wide.digit decimal blank c = Some v -> Int16.digit x = Some v) /\
    (Wide.accepted decimal blank c = false -> accepted x = false) /\
    (forall s, Wide.to_ascii decimal blank (c :: s)
               = String x (Wide.to_ascii decimal blank s)
               \/ (Wide.to_ascii decimal blank (c :: s) = "?" /\ x = "?"%char /\
                   Wide.accepted decimal blank c = false)).
Proof.
  unfold Wide.accepted, Wide.digit. cbn [Wide.to_ascii].
  destruct (c <? 128)%N.
  { exists (ascii_of_N c). repeat apply conj; auto. }
  destruct (blank c).
  { exists " "%char. repeat apply conj; auto; discriminate. }
  destruct (decimal c) as [d|].
  - destruct (N.ltb_spec d 10) as [Hd|Hd].
    + exists (ascii_of_N (48 + d)). repeat apply conj; auto.
      * intros v Hv. injection Hv as <-. exact (decimal_digit d Hd).
      * rewrite bool_decide_eq_true_2 by eauto. discriminate.
    + exists "?"%char. repeat apply conj; auto; discriminate.
  - exists "?"%char. repeat apply conj; auto; discriminate.
Qed.

Lemma int16_two_digits (c d : N) (u v : Z) :
  Wide.digit decimal blank c = Some u -> Wide.digit decimal blank d = Some v ->
  Wide.int16 decimal blank [c; d] = Ok (16 * u + v)%Z.
Proof.
  intros Hc Hd.
  destruct (to_ascii_one c) as (x & _ & Hx & Hax & Hs).
  destruct (to_ascii_one d) as (y & Hy & Hdy & _).
  unfold Wide.int16, Int16.int.
  destruct (Hs [d]) as [->|(_ & -> & _)].
  - rewrite Hy, (parse_two_digits x y u v (Hx u Hc) (Hdy v Hd)). reflexivity.
  - specialize (Hx u Hc). discriminate.
Qed.

Lemma int16_one_digit (c : N) (u : Z) :
  Wide.digit decimal blank c = Some u -> Wide.int16 decimal blank [c] = Ok u.
Proof.
  intros Hc. destruct (to_ascii_one c) as (x & Hx & Hdx & _).
  unfold Wide.int16, Int16.int. rewrite Hx, parse_one. cbn [slice_value].
  rewrite (Hdx u Hc). reflexivity.
Qed.

Lemma int16_rejected_1 (c : N) :
  Wide.accepted decimal blank c = false ->
  Wide.int16 decimal blank [c] = Raise ValueError.
Proof.
  intros Hc. destruct (to_ascii_one c) as (x & Hx & _ & Hax & _).
  unfold Wide.int16, Int16.int. rewrite Hx, (parse_rejected_1 x (Hax Hc)).
  reflexivity.
Qed.

Lemma int16_rejected_l (c d : N) :
  Wide.accepted decimal blank c = false ->
  Wide.int16 decimal blank [c; d] = Raise ValueError.
Proof.
  intros Hc. destruct (to_ascii_one c) as (x & _ & _ & Hax & Hs).
  destruct (to_ascii_one d) as (y & Hy & _).
  unfold Wide.int16, Int16.int.
  destruct (Hs [d]) as [->|(-> & _)].
  - rewrite Hy, (parse_rejected_l x y (Hax Hc)). reflexivity.
  - reflexivity.
Qed.

Lemma int16_rejected_r (c d : N) :
  Wide.accepted decimal blank c = false ->
  Wide.int16 decimal blank [d; c] = Raise ValueError.
Proof.
  intros Hc. destruct (to_ascii_one c) as (x & Hx & _ & Hax & _).
  destruct (to_ascii_one d) as (y & _ & _ & _ & Hs).
  unfold Wide.int16, Int16.int.
  destruct (Hs [c]) as [->|(-> & _)].
  - rewrite Hx, (parse_rejected_r x y (Hax Hc)). reflexivity.
  - reflexivity.
Qed.

Lemma wide_raises (s : Wide.str) (alpha : float) :
  Wide.int16 decimal blank (Wide.slice (Wide.lstrip [35%N] s) 0 2)
    = Raise ValueError \/
  Wide.int16 decimal blank (Wide.slice (Wide.lstrip [35%N] s) 2 4)
    = Raise ValueError \/
  Wide.int16 decimal blank (Wide.slice (Wide.lstrip [35%N] s) 4 6)
    = Raise ValueError ->
  Wide.hex_to_rgba decimal blank s alpha = Raise ValueError.
Proof.
  unfold Wide.hex_to_rgba, Wide.int16, Int16.int. intros H.
  destruct (Int16.parse (Wide.to_ascii _ _ (Wide.slice _ 0 2))); [|reflexivity].
  destruct (Int16.parse (Wide.to_ascii _ _ (Wide.slice _ 2 4))); [|reflexivity].
  destruct (Int16.parse (Wide.to_ascii _ _ (Wide.slice _ 4 6))); [|reflexivity].
  destruct H as [H|[H|H]]; discriminate.
Qed.

Lemma wide_slice_rejected (r : Wide.str) (i : nat) (c : N) :
  i < 6 -> r !! i = Some c -> Wide.accepted decimal blank c = false ->
  Wide.int16 decimal blank (Wide.slice r 0 2) = Raise ValueError \/
  Wide.int16 decimal blank (Wide.slice r 2 4) = Raise ValueError \/
  Wide.int16 decimal blank (Wide.slice r 4 6) = Raise ValueError.
Proof.
  intros Hi Hget Hc.
  destruct r as [|c0 [|c1 [|c2 [|c3 [|c4 [|c5 r]]]]]];
    destruct i as [|[|[|[|[|[|i]]]]]]; try lia;
    cbn in Hget; try discriminate; injection Hget as ->;
    cbn [Wide.slice take drop Nat.sub];
    rewrite ?(int16_rejected_1 c Hc), ?(int16_rejected_l c _ Hc),
      ?(int16_rejected_r c _ Hc); auto.
Qed.

Lemma wide_six (s rest : Wide.str) (d1 d2 d3 d4 d5 d6 : N)
    (v1 v2 v3 v4 v5 v6 : Z) (alpha : float) :
  Wide.lstrip [35%N] s = d1 :: d2 :: d3 :: d4 :: d5 :: d6 :: rest ->
  Wide.digit decimal blank d1 = Some v1 -> Wide.digit decimal blank d2 = Some v2 ->
  Wide.digit decimal blank d3 = Some v3 -> Wide.digit decimal blank d4 = Some v4 ->
  Wide.digit decimal blank d5 = Some v5 -> Wide.digit decimal blank d6 = Some v6 ->
  Wide.hex_to_rgba decimal blank s alpha
  = Ok (rgba (16 * v1 + v2) (16 * v3 + v4) (16 * v5 + v6) alpha).
Proof.
  intros Hs H1 H2 H3 H4 H5 H6. unfold Wide.hex_to_rgba. rewrite Hs.
  cbn [Wide.slice take drop Nat.sub]. rewrite take_0.
  rewrite (int16_two_digits d1 d2 v1 v2 H1 H2).
  rewrite (int16_two_digits d3 d4 v3 v4 H3 H4).
  rewrite (int16_two_digits d5 d6 v5 v6 H5 H6).
  reflexivity.
Qed.

Lemma wide_five (s : Wide.str) (d1 d2 d3 d4 d5 : N)
    (v1 v2 v3 v4 v5 : Z) (alpha : float) :
  Wide.lstrip [35%N] s = [d1; d2; d3; d4; d5] ->
  Wide.digit decimal blank d1 = Some v1 -> Wide.digit decimal blank d2 = Some v2 ->
  Wide.digit decimal blank d3 = Some v3 -> Wide.digit decimal blank d4 = Some v4 ->
  Wide.digit decimal blank d5 = Some v5 ->
  Wide.hex_to_rgba decimal blank s alpha
  = Ok (rgba (16 * v1 + v2) (16 * v3 + v4) v5 alpha).
Proof.
  intros Hs H1 H2 H3 H4 H5. unfold Wide.hex_to_rgba. rewrite Hs.
  cbn [Wide.slice take drop Nat.sub].
  rewrite (int16_two_digits d1 d2 v1 v2 H1 H2).
  rewrite (int16_two_digits d3 d4 v3 v4 H3 H4).
  rewrite (int16_one_digit d5 v5 H5).
  reflexivity.
Qed.

Lemma wide_short (s : Wide.str) (alpha : float) :
  length (Wide.lstrip [35%N] s) < 5 ->
  Wide.hex_to_rgba decimal blank s alpha = Raise ValueError.
Proof.
  intros Hlen. apply wide_raises. right; right.
  destruct (Wide.lstrip [35%N] s) as [|c0 [|c1 [|c2 [|c3 [|c4 r]]]]];
    try reflexivity.
  cbn in Hlen. lia.
Qed.

End WideConversion.

(** On a string of ASCII the database is not consulted, and the conversion
    is the one of the strings of the program. *)
Lemma of_string_lstrip (s : string) :
  Wide.of_string (Str.lstrip "#" s) = Wide.lstrip [35%N] (Wide.of_string s).
Proof.
  induction s as [|c s IH]; [reflexivity|].
  cbn [Str.lstrip Str.mem Wide.of_string Wide.lstrip existsb].
  rewrite !orb_false_r.
  destruct (Ascii.eqb_spec c "#") as [->|Hc].
  - rewrite IH. reflexivity.
  - destruct (N.eqb_spec (N_of_ascii c) 35) as [He|_]; [|reflexivity].
    exfalso. apply Hc. rewrite <- (ascii_N_embedding c), He. reflexivity.
Qed.

Lemma of_string_slice (s : string) (i j : nat) :
  Wide.of_string (Str.slice s i j) = Wide.slice (Wide.of_string s) i j.
Proof.
  unfold Str.slice, Wide.slice. generalize (j - i) as n. revert s.
  induction i as [|i IH]; intros s n.
  - cbn [Str.drop drop]. revert s.
    induction n as [|n IHn]; intros [|c s]; try reflexivity.
    cbn [Str.take Wide.of_string take]. rewrite IHn. reflexivity.
  - destruct s as [|c s]; [destruct n; reflexivity|].
    cbn [Str.drop Wide.of_string drop]. apply IH.
Qed.

Lemma ascii_only_lstrip (s : string) :
  Wide.ascii_only s = true -> Wide.ascii_only (Str.lstrip "#" s) = true.
Proof.
  induction s as [|c s IH]; [reflexivity|].
  cbn [Str.lstrip Wide.ascii_only]. intros [Hc Hs]%andb_true_iff.
  destruct (Str.mem c "#"); [exact (IH Hs)|].
  cbn [Wide.ascii_only]. rewrite Hc, Hs. reflexivity.
Qed.

Lemma ascii_only_slice (s : string) (i j : nat) :
  Wide.ascii_only s = true -> Wide.ascii_only (Str.slice s i j) = true.
Proof.
  unfold Str.slice. generalize (j - i) as n. revert s.
  induction i as [|i IH]; intros s n.
  - cbn [Str.drop]. revert s.
    induction n as [|n IHn]; intros [|c s]; try reflexivity.
    cbn [Str.take Wide.ascii_only]. intros [Hc Hs]%andb_true_iff.
    rewrite Hc, (IHn s Hs). reflexivity.
  - destruct s as [|c s]; [destruct n; reflexivity|].
    cbn [Str.drop Wide.ascii_only]. intros [_ Hs]%andb_true_iff.
    exact (IH s n Hs).
Qed.

Lemma to_ascii_of_string (decimal : N -> option N) (blank : N -> bool)
    (s : string) :
  Wide.ascii_only s = true ->
  Wide.to_ascii decimal blank (Wide.of_string s) = s.
Proof.
  induction s as [|c s IH]; [reflexivity|].
  cbn [Wide.ascii_only Wide.of_string Wide.to_ascii].
  intros [Hc Hs]%andb_true_iff.
  rewrite Hc, (IH Hs), ascii_N_embedding. reflexivity.
Qed.

Lemma wide_hex_to_rgba_ascii (decimal : N -> option N) (blank : N -> bool)
    (s : string) (alpha : float) :
  Wide.ascii_only s = true ->
  Wide.hex_to_rgba decimal blank (Wide.of_string s) alpha = hex_to_rgba s alpha.
Proof.
  intros Hs. unfold Wide.hex_to_rgba, hex_to_rgba, Wide.int16.
  rewrite <- of_string_lstrip, <- !of_string_slice.
  rewrite !to_ascii_of_string
    by (apply ascii_only_slice, ascii_only_lstrip, Hs).
  reflexivity.
Qed.

(** C3, as the code has it, on any [str] and whatever the Unicode database
    of the interpreter: ["#4A90D9"] with alpha 0.5 gives the channels 74,
    144 and 217 with alpha 0.5, and on a string of ASCII the conversion is
    the one of the strings of the program. After the markers, six digits of
    base 16 are accepted, whatever follows them (nothing, for exactly six),
    and so are five digits, the fifth read alone. The conversion fails with
    a [ValueError] when fewer than five characters remain after the
    markers, or when one of the first six is neither a digit of base 16, a
    sign nor a blank. *)
Theorem C3_hex_to_rgba_rejects (decimal : N -> option N) (blank : N -> bool) :
  Wide.hex_to_rgba decimal blank (Wide.of_string "#4A90D9") 0.5%float
    = Ok (rgba 74 144 217 0.5%float) /\
  hex_to_rgba "#4A90D9" 0.5%float = Ok "rgba(74, 144, 217, 0.5)" /\
  (forall s alpha,
      Wide.ascii_only s = true ->
      Wide.hex_to_rgba decimal blank (Wide.of_string s) alpha
      = hex_to_rgba s alpha) /\
  (forall s alpha rest d1 d2 d3 d4 d5 d6 v1 v2 v3 v4 v5 v6,
      Wide.lstrip [35%N] s = d1 :: d2 :: d3 :: d4 :: d5 :: d6 :: rest ->
      Wide.digit decimal blank d1 = Some v1 ->
      Wide.digit decimal blank d2 = Some v2 ->
      Wide.digit decimal blank d3 = Some v3 ->
      Wide.digit decimal blank d4 = Some v4 ->
      Wide.digit decimal blank d5 = Some v5 ->
      Wide.digit decimal blank d6 = Some v6 ->
      Wide.hex_to_rgba decimal blank s alpha
      = Ok (rgba (16 * v1 + v2) (16 * v3 + v4) (16 * v5 + v6) alpha)) /\
  (forall s alpha d1 d2 d3 d4 d5 v1 v2 v3 v4 v5,
      Wide.lstrip [35%N] s = [d1; d2; d3; d4; d5] ->
      Wide.digit decimal blank d1 = Some v1 ->
      Wide.digit decimal blank d2 = Some v2 ->
      Wide.digit decimal blank d3 = Some v3 ->
      Wide.digit decimal blank d4 = Some v4 ->
      Wide.digit decimal blank d5 = Some v5 ->
      Wide.hex_to_rgba decimal blank s alpha
      = Ok (rgba (16 * v1 + v2) (16 * v3 + v4) v5 alpha)) /\
  (forall s alpha,
      length (Wide.lstrip [35%N] s) < 5 ->
      Wide.hex_to_rgba decimal blank s alpha = Raise ValueError) /\
  (forall s alpha i c,
      i < 6 -> Wide.lstrip [35%N] s !! i = Some c ->
      Wide.accepted decimal blank c = false ->
      Wide.hex_to_rgba decimal blank s alpha = Raise ValueError).
Proof.
  split; [vm_compute; reflexivity|].
  split; [vm_compute; reflexivity|].
  split; [apply wide_hex_to_rgba_ascii|].
  split; [intros; eapply wide_six; eassumption|].
  split; [intros; eapply wide_five; eassumption|].
  split; [apply wide_short|].
  intros s alpha i c Hi Hget Hc. apply wide_raises.
  exact (wide_slice_rejected decimal blank _ i c Hi Hget Hc).
Qed.

Lemma C3_witness :
  Wide.hex_to_rgba Wide.arabic_indic Wide.three_blanks
    (Wide.of_string "#4A9") 0.5%float = Raise ValueError /\
  Wide.hex_to_rgba Wide.arabic_indic Wide.three_blanks
    (Wide.of_string "#4A90G9") 0.5%float = Raise ValueError /\
  Wide.hex_to_rgba Wide.arabic_indic Wide.three_blanks
    [35; 52; 65; 233; 48; 68; 57]%N 0.5%float = Raise ValueError /\
  Wide.hex_to_rgba Wide.arabic_indic Wide.three_blanks
    (Wide.of_string "#4A90D") 0.5%float = Ok (rgba 74 144 13 0.5%float) /\
  Wide.hex_to_rgba Wide.arabic_indic Wide.three_blanks
    (Wide.of_string "#4A90D9FF") 0.5%float = Ok (rgba 74 144 217 0.5%float) /\
  Wide.hex_to_rgba Wide.arabic_indic Wide.three_blanks
    [35; 1636; 65; 57; 48; 68; 57]%N 0.5%float
  = Ok (rgba 74 144 217 0.5%float).
Proof.
  destruct (C3_hex_to_rgba_rejects Wide.arabic_indic Wide.three_blanks)
    as (_ & _ & _ & Hsix & Hfive & Hshort & Hchar).
  split; [apply Hshort; simpl; lia|].
  split; [apply (Hchar _ _ 4 71%N); [lia | reflexivity | reflexivity]|].
  split; [apply (Hchar _ _ 2 233%N); [lia | reflexivity | reflexivity]|].
  split.
  { apply (Hfive (Wide.of_string "#4A90D") 0.5%float
             52%N 65%N 57%N 48%N 68%N 4%Z 10%Z 9%Z 0%Z 13%Z); reflexivity. }
  split.
  { apply (Hsix (Wide.of_string "#4A90D9FF") 0.5%float [70; 70]%N
             52%N 65%N 57%N 48%N 68%N 57%N 4%Z 10%Z 9%Z 0%Z 13%Z 9%Z);
      reflexivity. }
  apply (Hsix [35; 1636; 65; 57; 48; 68; 57]%N 0.5%float []
           1636%N 65%N 57%N 48%N 68%N 57%N 4%Z 10%Z 9%Z 0%Z 13%Z 9%Z);
    reflexivity.
Defined.

(** ** Labels of every value *)

Lemma fixed2_minus (n : Z) :
  PyFloat.fixed2 true n = "-" +:+ PyFloat.fixed2 false n.
Proof. reflexivity. Qed.

(** X4: for every name and every float the label is the two lines in bold
    joined by a line break; a finite value is written with exactly two
    decimals after an optional minus sign, and a value that is no number is
    written nan, inf or -inf, without decimals. *)
Theorem X4_label_of_any_value (name : string) (x : float) :
  label name x = join "<br>" (bold <$> label_lines name x) /\
  (finite x = true -> signed_two_decimals (PyFloat.format_2f x)) /\
  (finite x = false ->
   PyFloat.format_2f x = "nan" \/ PyFloat.format_2f x = "inf" \/
   PyFloat.format_2f x = "-inf").
Proof.
  split; [apply label_markup|].
  unfold finite, PyFloat.format_2f.
  destruct (Prim2SF x) as [s|s| |s m e]; split; intros H; try discriminate.
  - destruct s; [right; eexists; split; [apply fixed2_minus|] | left];
      apply fixed2_two_decimals; lia.
  - destruct s; auto.
  - auto.
  - destruct s; [right; eexists; split; [apply fixed2_minus|] | left];
      apply fixed2_two_decimals, scaled_nonneg.
Qed.

(** ** Runs of the exporter *)

Lemma mkdir_inv (p : string) (w w0 : world) :
  mkdir true p w = Ok w0 ->
  (files w !! p = None \/ files w !! p = Some Directory) /\
  files w0 = <[p := Directory]> (files w) /\
  written w0 = written w /\ stdout w0 = stdout w /\ shown w0 = shown w.
Proof.
  unfold mkdir.
  destruct (files w !! p) as [[| |]|] eqn:Hp; intros H; try discriminate;
    injection H as <-.
  - split; [right; reflexivity|]. rewrite insert_id by exact Hp. auto.
  - split; [left; reflexivity|]. auto.
Qed.

Lemma write_file_inv (p : string) (e : entry) (w w' : world) :
  write_file p e w = Ok w' ->
  files w !! p <> Some Directory /\
  files w' = <[p := e]> (files w) /\
  written w' = written w ++ [p] /\ stdout w' = stdout w /\ shown w' = shown w.
Proof.
  unfold write_file.
  destruct (files w !! p) as [[| |]|] eqn:Hp; try discriminate;
    destruct (match parent p with EmptyString => true | _ => _ end);
    intros H; try discriminate; injection H as <-; simpl;
    (split; [discriminate | auto]).
Qed.

(** What a run that goes through leaves behind. *)
Lemma main_with_inv (fmt : string) (w w' : world) :
  main_with fmt w = Ok w' ->
  exists fig,
    create_sankey_chart = Ok fig /\
    ready fmt w /\
    files w' = exported_files fmt fig (<[OUTPUT_DIR := Directory]> (files w)) /\
    written w' = written w ++ exported fmt /\
    stdout w' = stdout w ++ (saved <$> exported fmt) /\
    shown w' = shown w ++ [fig].
Proof.
  unfold main_with. intros H.
  apply bind_Ok_inv in H as (fig & Hfig & H).
  apply bind_Ok_inv in H as (w0 & Hmk & H).
  apply bind_Ok_inv in H as (w1 & H1 & H).
  apply bind_Ok_inv in H as (w2 & H2 & H).
  injection H as <-. exists fig. split; [exact Hfig|].
  apply mkdir_inv in Hmk as (Hdir & Hf0 & Hw0 & Hs0 & Hh0).
  rewrite html_path_eq in H1. rewrite png_path_eq in H2.
  unfold ready, exported, exported_files, write_html, write_image in *.
  cbn [files written stdout shown show].
  destruct (str_in fmt ["html"; "both"]); destruct (str_in fmt ["png"; "both"]).
  - apply bind_Ok_inv in H1 as (v1 & Hv1 & H1). injection H1 as <-.
    apply bind_Ok_inv in H2 as (v2 & Hv2 & H2). injection H2 as <-.
    apply write_file_inv in Hv1 as (Hn1 & Hf1 & Hw1 & Hs1 & Hh1).
    apply write_file_inv in Hv2 as (Hn2 & Hf2 & Hw2 & Hs2 & Hh2).
    cbn [files written stdout shown print] in *.
    rewrite Hf1, Hf0 in Hn2. rewrite Hf0 in Hn1.
    rewrite lookup_insert_ne in Hn2 by discriminate.
    rewrite lookup_insert_ne in Hn2 by discriminate.
    rewrite lookup_insert_ne in Hn1 by discriminate.
    split; [split; [exact Hdir | repeat constructor; assumption]|].
    rewrite Hf2, Hf1, Hf0, Hw2, Hw1, Hw0, Hs2, Hs1, Hs0, Hh2, Hh1, Hh0.
    rewrite <- !app_assoc. auto.
  - apply bind_Ok_inv in H1 as (v1 & Hv1 & H1). injection H1 as <-.
    injection H2 as <-.
    apply write_file_inv in Hv1 as (Hn1 & Hf1 & Hw1 & Hs1 & Hh1).
    cbn [files written stdout shown print] in *.
    rewrite Hf0 in Hn1. rewrite lookup_insert_ne in Hn1 by discriminate.
    split; [split; [exact Hdir | repeat constructor; assumption]|].
    rewrite Hf1, Hf0, Hw1, Hw0, Hs1, Hs0, Hh1, Hh0. auto.
  - injection H1 as <-.
    apply bind_Ok_inv in H2 as (v2 & Hv2 & H2). injection H2 as <-.
    apply write_file_inv in Hv2 as (Hn2 & Hf2 & Hw2 & Hs2 & Hh2).
    cbn [files written stdout shown print] in *.
    rewrite Hf0 in Hn2. rewrite lookup_insert_ne in Hn2 by discriminate.
    split; [split; [exact Hdir | repeat constructor; assumption]|].
    rewrite Hf2, Hf0, Hw2, Hw0, Hs2, Hs0, Hh2, Hh0. auto.
  - injection H1 as <-. injection H2 as <-.
    split; [split; [exact Hdir | constructor]|].
    rewrite Hf0, Hw0, Hs0, Hh0, !app_nil_r. auto.
Qed.

(** A run from a ready world goes through. *)
Lemma main_with_ready (fmt : string) (w : world) :
  ready fmt w -> exists w', main_with fmt w = Ok w'.
Proof.
  intros [Hdir Hall].
  destruct create_sankey_chart as [fig|e] eqn:Hfig;
    [|vm_compute in Hfig; discriminate].
  destruct (mkdir_output w Hdir) as (w0 & Hmk & Hd0 & Hsame & Hwr).
  unfold main_with. rewrite Hfig.
  cbn [mbind result_bind]. rewrite Hmk. cbn [mbind result_bind].
  rewrite html_path_eq, png_path_eq.
  unfold exported in Hall. unfold write_html, write_image.
  destruct (str_in fmt ["html"; "both"]); destruct (str_in fmt ["png"; "both"]);
    cbn [app] in Hall.
  - apply Forall_cons in Hall as [Hh Hall]. apply Forall_cons in Hall as [Hp _].
    rewrite <- (Hsame "output/sankey_chart.html") in Hh by discriminate.
    rewrite <- (Hsame "output/sankey_chart.png") in Hp by discriminate.
    rewrite (write_file_Ok "output/sankey_chart.html" _ w0 eq_refl Hh Hd0).
    cbn [mbind result_bind].
    rewrite write_file_Ok;
      [|reflexivity
       |cbn [files print]; lookup_paths; exact Hp
       |cbn [files print]; lookup_paths; exact Hd0].
    cbn [mbind result_bind]. eexists; reflexivity.
  - apply Forall_cons in Hall as [Hh _].
    rewrite <- (Hsame "output/sankey_chart.html") in Hh by discriminate.
    rewrite (write_file_Ok "output/sankey_chart.html" _ w0 eq_refl Hh Hd0).
    cbn [mbind result_bind]. eexists; reflexivity.
  - apply Forall_cons in Hall as [Hp _].
    rewrite <- (Hsame "output/sankey_chart.png") in Hp by discriminate.
    cbn [mbind result_bind].
    rewrite (write_file_Ok "output/sankey_chart.png" _ w0 eq_refl Hp Hd0).
    cbn [mbind result_bind]. eexists; reflexivity.
  - cbn [mbind result_bind]. eexists; reflexivity.
Qed.

(** X5: a run can only go through from a world in which the output
    directory is absent or a directory and none of the paths that the
    format writes is a directory. *)
Theorem X5_run_needs_ready_world (fmt : string) (w w' : world) :
  main_with fmt w = Ok w' -> ready fmt w.
Proof.
  intros H. apply main_with_inv in H as (fig & _ & Hr & _). exact Hr.
Qed.

Lemma X5_witness :
  main_with "both" empty_world = Ok (run_of "both" empty_world) /\
  ready "both" empty_world.
Proof.
  assert (H : main_with "both" empty_world = Ok (run_of "both" empty_world))
    by (vm_compute; reflexivity).
  split; [exact H|].
  exact (X5_run_needs_ready_world "both" empty_world _ H).
Defined.

(** X6: when a regular file has the name of the output directory, a run
    with any format raises [FileExistsError]: the directory is created
    before any file is written, and [exist_ok] does not cover a file. *)
Theorem X6_file_in_place_of_directory (fmt : string) (w : world) (f : entry) :
  files w !! OUTPUT_DIR = Some f -> is_file f = true ->
  main_with fmt w = Raise FileExistsError.
Proof.
  intros Hf Hfile.
  destruct create_sankey_chart as [fig|e] eqn:Hfig;
    [|vm_compute in Hfig; discriminate].
  unfold main_with. rewrite Hfig. cbn [mbind result_bind].
  unfold mkdir. rewrite Hf.
  destruct f; [discriminate | reflexivity | reflexivity].
Qed.

Lemma X6_witness :
  files blocked_world !! OUTPUT_DIR = Some (HtmlFile blank_figure) /\
  main_with "both" blocked_world = Raise FileExistsError.
Proof.
  assert (H : files blocked_world !! OUTPUT_DIR = Some (HtmlFile blank_figure))
    by (vm_compute; reflexivity).
  split; [exact H|].
  exact (X6_file_in_place_of_directory "both" blocked_world _ H eq_refl).
Defined.

Lemma new_writes_of_run (fmt : string) (w w' : world) :
  main_with fmt w = Ok w' -> new_writes w w' = exported fmt.
Proof.
  intros (fig & _ & _ & _ & Hw & _)%main_with_inv.
  unfold new_writes. rewrite Hw. apply drop_app_length.
Qed.



(** X7: a run that goes through writes the paths of its format and no
    other, prints one line "Saved: path" for each written path, in the
    order of the writes, and shows the figure once. *)
Theorem X7_every_write_is_reported (fmt : string) (w w' : world) :
  main_with fmt w = Ok w' ->
  new_writes w w' = exported fmt /\
  stdout w' = stdout w ++ (saved <$> new_writes w w') /\
  exists fig, create_sankey_chart = Ok fig /\ shown w' = shown w ++ [fig].
Proof.
  intros H. pose proof (new_writes_of_run fmt w w' H) as Hn.
  apply main_with_inv in H as (fig & Hfig & _ & _ & _ & Hs & Hh).
  split; [exact Hn|]. rewrite Hn. split; [exact Hs|].
  exists fig. auto.
Qed.

Lemma X7_witness :
  main_with "both" empty_world = Ok (run_of "both" empty_world) /\
  stdout (run_of "both" empty_world)
  = ["Saved: output/sankey_chart.html"; "Saved: output/sankey_chart.png"].
Proof.
  assert (H : main_with "both" empty_world = Ok (run_of "both" empty_world))
    by (vm_compute; reflexivity).
  split; [exact H|].
  destruct (X7_every_write_is_reported "both" empty_world _ H) as (Hn & Hs & _).
  rewrite Hs, Hn. reflexivity.
Defined.

(** X8: a format other than "html", "png" and "both" is not rejected: the
    run creates the output directory, writes no file, prints nothing and
    shows the figure. *)
Theorem X8_unknown_format_writes_nothing (fmt : string) (w : world) :
  fmt <> "html" -> fmt <> "png" -> fmt <> "both" ->
  files w !! OUTPUT_DIR = None \/ files w !! OUTPUT_DIR = Some Directory ->
  exists w' fig,
    main_with fmt w = Ok w' /\ create_sankey_chart = Ok fig /\
    files w' = <[OUTPUT_DIR := Directory]> (files w) /\
    written w' = written w /\ stdout w' = stdout w /\
    shown w' = shown w ++ [fig].
Proof.
  intros Hh Hp Hb Hdir.
  assert (E1 : str_in fmt ["html"; "both"] = false).
  { unfold str_in. cbn [existsb].
    apply String.eqb_neq in Hh, Hb. rewrite Hh, Hb. reflexivity. }
  assert (E2 : str_in fmt ["png"; "both"] = false).
  { unfold str_in. cbn [existsb].
    apply String.eqb_neq in Hp, Hb. rewrite Hp, Hb. reflexivity. }
  assert (Hr : ready fmt w).
  { split; [exact Hdir|]. unfold exported. rewrite E1, E2. constructor. }
  destruct (main_with_ready fmt w Hr) as [w' Hw'].
  pose proof Hw' as (fig & Hfig & _ & Hf & Hw & Hs & Hsh)%main_with_inv.
  unfold exported_files, exported in *. rewrite E1, E2 in *.
  cbn [app fmap list_fmap] in *. rewrite app_nil_r in Hw, Hs.
  exists w', fig. auto 10.
Qed.

Lemma X8_witness :
  exists w' fig,
    main_with "HTML" empty_world = Ok w' /\ create_sankey_chart = Ok fig /\
    files w' = <[OUTPUT_DIR := Directory]> (files empty_world) /\
    written w' = written empty_world /\ stdout w' = stdout empty_world /\
    shown w' = shown empty_world ++ [fig].
Proof.
  apply (X8_unknown_format_writes_nothing "HTML" empty_world);
    [discriminate | discriminate | discriminate | left; reflexivity].
Defined.

(** X9: a run that goes through leaves every path other than the output
    directory and its two files as it was. *)
Theorem X9_other_paths_untouched (fmt : string) (w w' : world) (p : string) :
  main_with fmt w = Ok w' ->
  p <> "output" -> p <> "output/sankey_chart.html" ->
  p <> "output/sankey_chart.png" ->
  files w' !! p = files w !! p.
Proof.
  intros (fig & _ & _ & Hf & _)%main_with_inv Ho Hh Hp.
  rewrite Hf. unfold exported_files, OUTPUT_DIR.
  destruct (str_in fmt ["html"; "both"]); destruct (str_in fmt ["png"; "both"]);
    rewrite ?lookup_insert_ne by congruence; reflexivity.
Qed.

Lemma X9_witness :
  main_with "both" empty_world = Ok (run_of "both" empty_world) /\
  files (run_of "both" empty_world) !! "output/notes.txt"
  = files empty_world !! "output/notes.txt".
Proof.
  assert (H : main_with "both" empty_world = Ok (run_of "both" empty_world))
    by (vm_compute; reflexivity).
  split; [exact H|].
  apply (X9_other_paths_untouched "both" empty_world
           (run_of "both" empty_world) "output/notes.txt" H);
    discriminate.
Defined.

(** X10: after a run that goes through, the output directory exists and
    every path that the format writes holds the chart of this run (the
    image at scale 2), whatever it held before. *)
Theorem X10_targets_hold_the_chart (fmt : string) (w w' : world) :
  main_with fmt w = Ok w' ->
  exists fig,
    create_sankey_chart = Ok fig /\
    files w' !! OUTPUT_DIR = Some Directory /\
    (str_in fmt ["html"; "both"] = true ->
     files w' !! "output/sankey_chart.html" = Some (HtmlFile fig)) /\
    (str_in fmt ["png"; "both"] = true ->
     files w' !! "output/sankey_chart.png" = Some (ImageFile fig 2)).
Proof.
  intros (fig & Hfig & _ & Hf & _)%main_with_inv.
  exists fig. split; [exact Hfig|].
  rewrite Hf. unfold exported_files, OUTPUT_DIR.
  destruct (str_in fmt ["html"; "both"]); destruct (str_in fmt ["png"; "both"]);
    repeat apply conj; try discriminate; try intros _; lookup_paths;
    reflexivity.
Qed.

Lemma X10_witness :
  files stale_world !! "output/sankey_chart.png"
    = Some (ImageFile blank_figure 1) /\
  main_with "both" stale_world = Ok (run_of "both" stale_world) /\
  exists fig,
    create_sankey_chart = Ok fig /\
    files (run_of "both" stale_world) !! OUTPUT_DIR = Some Directory /\
    (str_in "both" ["html"; "both"] = true ->
     files (run_of "both" stale_world) !! "output/sankey_chart.html"
     = Some (HtmlFile fig)) /\
    (str_in "both" ["png"; "both"] = true ->
     files (run_of "both" stale_world) !! "output/sankey_chart.png"
     = Some (ImageFile fig 2)).
Proof.
  split; [vm_compute; reflexivity|].
  assert (H : main_with "both" stale_world = Ok (run_of "both" stale_world))
    by (vm_compute; reflexivity).
  split; [exact H|].
  exact (X10_targets_hold_the_chart "both" stale_world _ H).
Defined.

Lemma exported_files_again (fmt : string) (fig : figure) (m : gmap string entry) :
  exported_files fmt fig
    (<[OUTPUT_DIR := Directory]> (exported_files fmt fig (<[OUTPUT_DIR := Directory]> m)))
  = exported_files fmt fig (<[OUTPUT_DIR := Directory]> m).
Proof.
  unfold exported_files, OUTPUT_DIR.
  destruct (str_in fmt ["html"; "both"]); destruct (str_in fmt ["png"; "both"]);
    apply map_eq; intros p;
    (destruct (decide (p = "output/sankey_chart.png")) as [->|?];
       [lookup_paths; reflexivity|]);
    (destruct (decide (p = "output/sankey_chart.html")) as [->|?];
       [lookup_paths; reflexivity|]);
    (destruct (decide (p = "output")) as [->|?];
       [lookup_paths; reflexivity|]);
    rewrite !lookup_insert_ne by congruence; reflexivity.
Qed.

(** X11: a run that went through can be repeated from the world it left:
    the second run goes through, writes the same paths again and leaves the
    file system exactly as the first run left it. *)
Theorem X11_run_again (fmt : string) (w w1 : world) :
  main_with fmt w = Ok w1 ->
  exists w2,
    main_with fmt w1 = Ok w2 /\
    files w2 = files w1 /\
    new_writes w1 w2 = new_writes w w1.
Proof.
  intros H. pose proof (new_writes_of_run fmt w w1 H) as Hn.
  apply main_with_inv in H as (fig & Hfig & [_ Hall] & Hf & _).
  assert (Hr : ready fmt w1).
  { split.
    - right. rewrite Hf. unfold exported_files, OUTPUT_DIR.
      destruct (str_in fmt ["html"; "both"]);
        destruct (str_in fmt ["png"; "both"]); lookup_paths; reflexivity.
    - rewrite Hf. unfold exported, exported_files, OUTPUT_DIR in *.
      destruct (str_in fmt ["html"; "both"]);
        destruct (str_in fmt ["png"; "both"]); cbn [app] in *;
        repeat constructor; lookup_paths; discriminate. }
  destruct (main_with_ready fmt w1 Hr) as [w2 H2]. exists w2.
  split; [exact H2|].
  rewrite (new_writes_of_run fmt w1 w2 H2), Hn. split; [|reflexivity].
  apply main_with_inv in H2 as (fig' & Hfig' & _ & Hf2 & _).
  rewrite Hfig in Hfig'. injection Hfig' as <-.
  rewrite Hf2, Hf. apply exported_files_again.
Qed.

Lemma X11_witness :
  main_with "both" empty_world = Ok (run_of "both" empty_world) /\
  exists w2,
    main_with "both" (run_of "both" empty_world) = Ok w2 /\
    files w2 = files (run_of "both" empty_world) /\
    new_writes (run_of "both" empty_world) w2
    = new_writes empty_world (run_of "both" empty_world).
Proof.
  assert (H : main_with "both" empty_world = Ok (run_of "both" empty_world))
    by (vm_compute; reflexivity).
  split; [exact H|].
  exact (X11_run_again "both" empty_world _ H).
Defined.

(** ** Link colours of any node list *)

Lemma mapM_Ok_all {A B} (f : A -> result B) (l : list A) :
  Forall (fun x => is_Ok (f x)) l -> exists k, mapM f l = Ok k.
Proof.
  induction 1 as [|x l [y Hy] _ [k Hk]]; [exists []; reflexivity|].
  exists (y :: k). simpl. rewrite Hy. simpl. rewrite Hk. reflexivity.
Qed.

Lemma six_hex_digits_Ok (c : string) (alpha : float) :
  six_hex_digits (Str.lstrip "#" c) = true -> is_Ok (hex_to_rgba c alpha).
Proof.
  unfold six_hex_digits.
  destruct (Str.lstrip "#" c) as [|d1 [|d2 [|d3 [|d4 [|d5 [|d6 [|d7 r]]]]]]]
    eqn:Hs; try discriminate.
  cbn [String.length Nat.eqb andb all_hex]. unfold is_hex.
  destruct (Int16.digit d1) as [v1|] eqn:H1; [|discriminate].
  destruct (Int16.digit d2) as [v2|] eqn:H2; [|discriminate].
  destruct (Int16.digit d3) as [v3|] eqn:H3; [|discriminate].
  destruct (Int16.digit d4) as [v4|] eqn:H4; [|discriminate].
  destruct (Int16.digit d5) as [v5|] eqn:H5; [|discriminate].
  destruct (Int16.digit d6) as [v6|] eqn:H6; [|discriminate].
  intros _. eexists.
  exact (hex_to_rgba_six _ _ _ _ _ _ _ _ _ _ _ _ _ _ alpha Hs H1 H2 H3 H4 H5 H6).
Qed.

Lemma link_color_outside (cs : list string) (t : Z) :
  (t < - Z.of_nat (length cs) \/ Z.of_nat (length cs) <= t)%Z ->
  link_color cs t = Raise IndexError.
Proof.
  unfold link_color, getitem. intros [H|H].
  - destruct (Z.ltb_spec t 0); [|lia].
    destruct (Z.ltb_spec (t + Z.of_nat (length cs)) 0); [reflexivity | lia].
  - destruct (Z.ltb_spec t 0); [lia|].
    destruct (Z.ltb_spec t 0); [lia|].
    rewrite lookup_ge_None_2 by lia. reflexivity.
Qed.

Lemma link_color_wrap (cs : list string) (t : Z) :
  (- Z.of_nat (length cs) <= t < 0)%Z ->
  link_color cs t = link_color cs (t + Z.of_nat (length cs)).
Proof.
  unfold link_color, getitem. intros H.
  destruct (Z.ltb_spec t 0); [|lia].
  destruct (Z.ltb_spec (t + Z.of_nat (length cs)) 0); [lia|].
  destruct (Z.ltb_spec (t + Z.of_nat (length cs)) 0); [lia|].
  reflexivity.
Qed.

Lemma link_color_inside (cs : list string) (t : Z) :
  (0 <= t < Z.of_nat (length cs))%Z ->
  exists c, cs !! Z.to_nat t = Some c /\
            link_color cs t = hex_to_rgba c 0.5%float.
Proof.
  intros H. destruct (getitem_in_range cs t H) as (c & Hc & Hl).
  exists c. split; [exact Hl|]. unfold link_color. rewrite Hc. reflexivity.
Qed.

(** X12: the colour of a link whose target lies outside the node list, on
    either side, is an [IndexError]; a negative target within the length of
    the list is not rejected: it counts from the end of the list. *)
Theorem X12_target_index (cs : list string) (t : Z) :
  ((t < - Z.of_nat (length cs) \/ Z.of_nat (length cs) <= t)%Z ->
   link_color cs t = Raise IndexError) /\
  ((- Z.of_nat (length cs) <= t < 0)%Z ->
   link_color cs t = link_color cs (t + Z.of_nat (length cs))) /\
  ((0 <= t < Z.of_nat (length cs))%Z ->
   exists c, cs !! Z.to_nat t = Some c /\
             link_color cs t = hex_to_rgba c 0.5%float).
Proof.
  split; [apply link_color_outside|].
  split; [apply link_color_wrap | apply link_color_inside].
Qed.

Lemma X12_witness :
  link_color ["#4A90D9"; "#27AE60"; "#C0392B"] 3 = Raise IndexError /\
  link_color ["#4A90D9"; "#27AE60"; "#C0392B"] (-1)
  = link_color ["#4A90D9"; "#27AE60"; "#C0392B"] 2.
Proof.
  destruct (X12_target_index ["#4A90D9"; "#27AE60"; "#C0392B"] 3) as (H & _).
  destruct (X12_target_index ["#4A90D9"; "#27AE60"; "#C0392B"] (-1)) as (_ & H' & _).
  split; [apply H; simpl; lia | apply H'; simpl; lia].
Defined.

(** X13: for any list of node colours that are each six digits of base 16
    after their markers, and any list of targets within that list, the link
    colours are computed without an error, one per target. *)
Theorem X13_link_colours_of_a_palette (cs : list string) (ts : list Z) :
  Forall (fun c => six_hex_digits (Str.lstrip "#" c) = true) cs ->
  Forall (fun t => (- Z.of_nat (length cs) <= t < Z.of_nat (length cs))%Z) ts ->
  exists lc, mapM (link_color cs) ts = Ok lc /\ length lc = length ts.
Proof.
  intros Hcs Hts.
  assert (Hall : Forall (fun t => is_Ok (link_color cs t)) ts).
  { eapply Forall_impl; [exact Hts|]. intros t Ht. cbv beta in Ht.
    assert (Hin : forall u, (0 <= u < Z.of_nat (length cs))%Z ->
                            is_Ok (link_color cs u)).
    { intros u Hu.
      destruct (link_color_inside cs u Hu) as (c & Hl & ->).
      apply six_hex_digits_Ok.
      exact (proj1 (Forall_lookup _ _) Hcs _ _ Hl). }
    destruct (Z.ltb_spec t 0) as [Hneg|Hpos].
    - rewrite link_color_wrap by lia. apply Hin. lia.
    - apply Hin. lia. }
  destruct (mapM_Ok_all _ _ Hall) as [lc Hlc].
  exists lc. split; [exact Hlc | exact (mapM_Ok_length _ _ _ Hlc)].
Qed.

Lemma X13_witness :
  exists lc,
    mapM (link_color ["#4A90D9"; "27AE60"; "##c0392b"]) [0; 2; -1; 1]%Z = Ok lc /\
    length lc = 4.
Proof.
  apply (X13_link_colours_of_a_palette ["#4A90D9"; "27AE60"; "##c0392b"]
           [0; 2; -1; 1]%Z).
  - repeat constructor.
  - repeat constructor; simpl; lia.
Defined.

(** ** The rounding of a label's value *)

Lemma round_half_even_close (q : Q) :
  (inject_Z (PyFloat.round_half_even q) - (1 # 2) <= q
   <= inject_Z (PyFloat.round_half_even q) + (1 # 2))%Q.
Proof.
  unfold PyFloat.round_half_even.
  pose proof (Qfloor_le q) as Hlo. pose proof (Qlt_floor q) as Hhi.
  rewrite inject_Z_plus in Hhi. change (inject_Z 1) with 1%Q in Hhi.
  destruct (Qcompare_spec (q - inject_Z (Qfloor q)) (1 # 2)) as [H|H|H].
  - destruct (Z.even (Qfloor q)); rewrite ?inject_Z_plus;
      change (inject_Z 1) with 1%Q; lra.
  - lra.
  - rewrite inject_Z_plus. change (inject_Z 1) with 1%Q. lra.
Qed.



(** ** The labels of the declared nodes *)

Lemma reads_rounded_spec (x : float) :
  reads_rounded x = true ->
  nonneg_finite x = true /\
  exists m e,
    Prim2SF x = S754_finite false m e /\
    read_hundredths (PyFloat.format_2f x) = Some (PyFloat.scaled 2 m e).
Proof.
  unfold reads_rounded, nonneg_finite.
  destruct (Prim2SF x) as [s|s| |[] m e]; try discriminate.
  destruct (read_hundredths _) as [n|]; [|discriminate].
  intros ->%Z.eqb_eq. split; [reflexivity|]. exists m, e. auto.
Qed.

(** The text of every declared value reads as the hundredths to which the
    value rounds. *)
Lemma declared_values_read_back (nd : list (string * float)) :
  node_data = Ok nd ->
  Forall (fun nv : string * float => reads_rounded nv.2 = true) nd.
Proof.
  intros Hnd. vm_compute in Hnd. injection Hnd as <-.
  apply List.Forall_forall.
  apply (proj1 (forallb_forall
                  (fun nv : string * float => reads_rounded nv.2) _)).
  vm_compute. reflexivity.
Qed.

(** C6, as the code has it: each of the 21 nodes gets a label of the form
    <b>name</b><br><b>$valueM</b>: the name and the value line are in bold
    tags and joined by the line break of the markup, not by a newline
    character; the value is written with exactly two decimals, which are
    those of the hundredth nearest to the value. *)
Theorem C6_labels (d : sankey_data) (nd : list (string * float))
    (i : nat) (name : string) (value : float) :
  build_sankey_data = Ok d ->
  node_data = Ok nd ->
  nd !! i = Some (name, value) ->
  length nd = 21 /\
  labels d =
    [ "<b>iPhone</b><br><b>$47.00M</b>";
      "<b>Mac</b><br><b>$9.20M</b>";
      "<b>iPad</b><br><b>$6.70M</b>";
      "<b>Wearables</b><br><b>$9.38M</b>";
      "<b>Revenue</b><br><b>$72.28M</b>";
      "<b>Gross Profit</b><br><b>$27.90M</b>";
      "<b>COGS</b><br><b>$44.38M</b>";
      "<b>Operating Profit</b><br><b>$7.70M</b>";
      "<b>Operating Expenses</b><br><b>$20.20M</b>";
      "<b>Net Profit</b><br><b>$5.64M</b>";
      "<b>Taxes</b><br><b>$2.12M</b>";
      "<b>Other</b><br><b>$0.06M</b>";
      "<b>Industrial</b><br><b>$6.28M</b>";
      "<b>Commercial</b><br><b>$8.04M</b>";
      "<b>Administrative</b><br><b>$4.07M</b>";
      "<b>R & D</b><br><b>$0.01M</b>";
      "<b>Headqtr.</b><br><b>$0.94M</b>";
      "<b>Depreciation</b><br><b>$0.87M</b>";
      "<b>Raw Material</b><br><b>$37.02M</b>";
      "<b>Labor Costs</b><br><b>$5.37M</b>";
      "<b>Other Costs</b><br><b>$1.99M</b>" ] /\
  Forall (fun l => Str.mem newline_char l = false) (labels d) /\
  exists (txt : string) (n : Z) (m : positive) (e : Z),
    labels d !! i
    = Some ("<b>" +:+ name +:+ "</b><br><b>$" +:+ txt +:+ "M</b>") /\
    "<b>" +:+ name +:+ "</b><br><b>$" +:+ txt +:+ "M</b>"
    = join "<br>" [bold name; bold ("$" +:+ txt +:+ "M")] /\
    two_decimals txt /\
    read_hundredths txt = Some n /\
    Prim2SF value = S754_finite false m e /\
    (inject_Z n - (1 # 2) <= PyFloat.value m e * 100
     <= inject_Z n + (1 # 2))%Q.
Proof.
  intros Hd Hnd Hi.
  pose proof (declared_values_read_back nd Hnd) as Hall.
  destruct (reads_rounded_spec value
              (proj1 (Forall_lookup _ _) Hall i (name, value) Hi))
    as (Hfin & m & e & Hx & Hread).
  assert (Hlab : labels d = (fun nv : string * float => label nv.1 nv.2) <$> nd).
  { unfold build_sankey_data in Hd.
    apply bind_Ok_inv in Hd as (nd' & Hnd' & Hd).
    rewrite Hnd in Hnd'. injection Hnd' as <-.
    apply bind_Ok_inv in Hd as (cs & _ & Hd).
    apply bind_Ok_inv in Hd as (ls & _ & Hd).
    apply bind_Ok_inv in Hd as (lc & _ & Hd).
    injection Hd as <-. reflexivity. }
  split; [apply mapM_Ok_length in Hnd; exact Hnd|].
  split.
  { apply build_sankey_data_inv in Hd. subst d. reflexivity. }
  split.
  { apply build_sankey_data_inv in Hd. subst d. repeat constructor. }
  exists (PyFloat.format_2f value), (PyFloat.scaled 2 m e), m, e.
  split; [rewrite Hlab, list_lookup_fmap, Hi; reflexivity|].
  split; [exact (label_markup name value)|].
  split; [exact (format_2f_two_decimals value Hfin)|].
  split; [exact Hread|].
  split; [exact Hx|].
  exact (round_half_even_close (PyFloat.value m e * 100)).
Qed.

Lemma C6_witness :
  labels assembled !! 19%nat = Some "<b>Labor Costs</b><br><b>$5.37M</b>" /\
  exists (txt : string) (n : Z) (m : positive) (e : Z),
    labels assembled !! 19%nat
    = Some ("<b>" +:+ "Labor Costs" +:+ "</b><br><b>$" +:+ txt +:+ "M</b>") /\
    "<b>" +:+ "Labor Costs" +:+ "</b><br><b>$" +:+ txt +:+ "M</b>"
    = join "<br>" [bold "Labor Costs"; bold ("$" +:+ txt +:+ "M")] /\
    two_decimals txt /\
    read_hundredths txt = Some n /\
    Prim2SF LABOR_COSTS = S754_finite false m e /\
    (inject_Z n - (1 # 2) <= PyFloat.value m e * 100
     <= inject_Z n + (1 # 2))%Q.
Proof.
  split; [reflexivity|].
  refine (proj2 (proj2 (proj2 (C6_labels assembled
    (match node_data with Ok nd => nd | Raise _ => [] end)
    19 "Labor Costs" LABOR_COSTS _ _ _)))).
  - vm_compute; reflexivity.
  - vm_compute; reflexivity.
  - vm_compute; reflexivity.
Defined.

(** C6, against the form with a newline: the label of the first node is
    <b>iPhone</b><br><b>$47.00M</b>, which is not the text iPhone, newline,
    $47.00M, and no label holds a newline character. *)
Lemma C6_label_is_markup_without_newline :
  exists d,
    build_sankey_data = Ok d /\
    labels d !! 0%nat = Some "<b>iPhone</b><br><b>$47.00M</b>" /\
    labels d !! 0%nat <> Some ("iPhone" +:+ newline +:+ "$47.00M") /\
    Forall (fun l => Str.mem newline_char l = false) (labels d).
Proof.
  exists assembled. split; [exact build_sankey_data_Ok|].
  split; [reflexivity|]. split; [discriminate|].
  repeat constructor.
Qed.

(** ** The shape of the assembled graph *)

Lemma revenue_reaches (n : Z) : (5 <= n <= 20)%Z -> tc (edge assembled) 4%Z n.
Proof.
  intros Hn.
  assert (R5 : tc (edge assembled) 4%Z 5%Z) by (apply tc_once; edge_at 4%nat).
  assert (R6 : tc (edge assembled) 4%Z 6%Z) by (apply tc_once; edge_at 5%nat).
  assert (R7 : tc (edge assembled) 4%Z 7%Z) by (eapply tc_r; [exact R5 | edge_at 6%nat]).
  assert (R8 : tc (edge assembled) 4%Z 8%Z) by (eapply tc_r; [exact R5 | edge_at 7%nat]).
  assert (H : (n = 5 \/ n = 6 \/ n = 7 \/ n = 8 \/ n = 9 \/ n = 10 \/ n = 11
               \/ n = 12 \/ n = 13 \/ n = 14 \/ n = 15 \/ n = 16 \/ n = 17
               \/ n = 18 \/ n = 19 \/ n = 20)%Z) by lia.
  destruct H as [->|[->|[->|[->|[->|[->|[->|[->|[->|[->|[->|[->|[->|[->|[->| ->]]]]]]]]]]]]]]];
    [ exact R5 | exact R6 | exact R7 | exact R8
    | eapply tc_r; [exact R7 | edge_at 8%nat]
    | eapply tc_r; [exact R7 | edge_at 9%nat]
    | eapply tc_r; [exact R7 | edge_at 10%nat]
    | eapply tc_r; [exact R8 | edge_at 11%nat]
    | eapply tc_r; [exact R8 | edge_at 12%nat]
    | eapply tc_r; [exact R8 | edge_at 13%nat]
    | eapply tc_r; [exact R8 | edge_at 14%nat]
    | eapply tc_r; [exact R8 | edge_at 15%nat]
    | eapply tc_r; [exact R8 | edge_at 16%nat]
    | eapply tc_r; [exact R6 | edge_at 17%nat]
    | eapply tc_r; [exact R6 | edge_at 18%nat]
    | eapply tc_r; [exact R6 | edge_at 19%nat] ].
Qed.

(** X15: the assembled graph is a tree around Revenue: every product has
    its one edge into Revenue and no incoming edge, and every node after
    Revenue is reached from Revenue along the edges and has exactly one
    incoming edge. *)
Theorem X15_tree_around_revenue (d : sankey_data) (n : Z) :
  build_sankey_data = Ok d ->
  ((0 <= n <= 3)%Z ->
   edge d n 4%Z /\ length (inflow d n) = 0 /\ length (outflow d n) = 1) /\
  ((5 <= n <= 20)%Z ->
   tc (edge d) 4%Z n /\ length (inflow d n) = 1).
Proof.
  intros ->%build_sankey_data_inv. split; intros Hn.
  - assert (H : (n = 0 \/ n = 1 \/ n = 2 \/ n = 3)%Z) by lia.
    destruct H as [->|[->|[->| ->]]];
      (split; [|split; reflexivity]);
      [edge_at 0%nat | edge_at 1%nat | edge_at 2%nat | edge_at 3%nat].
  - split; [exact (revenue_reaches n Hn)|].
    assert (H : (n = 5 \/ n = 6 \/ n = 7 \/ n = 8 \/ n = 9 \/ n = 10 \/ n = 11
                 \/ n = 12 \/ n = 13 \/ n = 14 \/ n = 15 \/ n = 16 \/ n = 17
                 \/ n = 18 \/ n = 19 \/ n = 20)%Z) by lia.
    repeat (destruct H as [->|H]; [reflexivity|]). subst n. reflexivity.
Qed.

Lemma X15_witness :
  build_sankey_data = Ok assembled /\
  tc (edge assembled) 4%Z 17%Z /\ length (inflow assembled 17) = 1.
Proof.
  split; [vm_compute; reflexivity|].
  apply (X15_tree_around_revenue assembled 17); [vm_compute; reflexivity | lia].
Defined.

(** X16: every link carries the value of the node at its outer end: the
    product for a link into Revenue, the target node for every other link;
    so the width of a link is the figure printed in that node's label. *)
Theorem X16_link_values_are_node_values (d : sankey_data)
    (nd : list (string * float)) (i : nat) (s t : Z) (v : float) :
  build_sankey_data = Ok d ->
  node_data = Ok nd ->
  sources d !! i = Some s -> targets d !! i = Some t -> values d !! i = Some v ->
  exists name,
    nd !! Z.to_nat (if (t =? 4)%Z then s else t) = Some (name, v) /\
    labels d !! Z.to_nat (if (t =? 4)%Z then s else t) = Some (label name v).
Proof.
  intros ->%build_sankey_data_inv Hnd Hs Ht Hv.
  vm_compute in Hnd. injection Hnd as <-.
  do 20 (destruct i as [|i];
         [ cbn in Hs, Ht, Hv; injection Hs as <-; injection Ht as <-;
           injection Hv as <-; eexists; split; vm_compute; reflexivity |]).
  discriminate.
Qed.

Lemma X16_witness :
  exists name,
    match node_data with Ok nd => nd | Raise _ => [] end !! Z.to_nat 14
      = Some (name, ADMINISTRATIVE) /\
    labels assembled !! Z.to_nat 14 = Some (label name ADMINISTRATIVE).
Proof.
  apply (X16_link_values_are_node_values assembled
           (match node_data with Ok nd => nd | Raise _ => [] end)
           13 8 14 ADMINISTRATIVE);
    vm_compute; reflexivity.
Defined.
